(** * book.py: the validated entity model of the library catalogue

    A shallow embedding of [src/book.py] and the properties of its
    category registry, value objects, format policy and [Book] aggregate.

    Python values whose type the code inspects at run time ([isinstance],
    subscripting, JSON conversion) are values of [pyval]; the three closed
    enumerations [BookFormat], [BookStatus] and [BookCondition] are
    inductive types; a raised exception is the [Raise] outcome of the
    [result] monad. *)

From Stdlib Require Import ZArith NArith List String Ascii Bool Lia.
Import ListNotations.
Open Scope Z_scope.
Set Warnings "-register-all".

(** ** Python strings

    A [str] is a sequence of Unicode code points.  Literals of the source
    are written as Rocq strings and embedded with [ustr]. *)

Definition pystr := list N.

Definition ustr (s : string) : pystr :=
  map N_of_ascii (list_ascii_of_string s).

Definition pystr_eqb (a b : pystr) : bool :=
  if list_eq_dec N.eq_dec a b then true else false.

(** ** Python values

    [pyval] is the data a catalogue record or a JSON text can hold; a global
    name of the module is bound to a class or to such a value ([pyobj]).
    No operation of the module computes with a float, so a float is kept as
    a decimal literal that denotes it. *)

(** The classes the module mentions: builtins and the classes created by
    its own [class] statements. *)
Inductive pyclass :=
| Cobject | CNoneType | Cbool | Cint | Cfloat | Cstr | Clist | Cdict
| CEnum | CCategory | CBookCategory | CDigitalFormat.

Definition class_name (c : pyclass) : string :=
  match c with
  | Cobject => "object" | CNoneType => "NoneType"
  | Cbool => "bool" | Cint => "int" | Cfloat => "float" | Cstr => "str"
  | Clist => "list" | Cdict => "dict" | CEnum => "Enum"
  | CCategory => "Category" | CBookCategory => "BookCategory"
  | CDigitalFormat => "DigitalFormat"
  end.

Inductive pyval :=
| VNone
| VBool (b : bool)
| VInt (z : Z)
| VFloat (literal : pystr)
| VStr (s : pystr)
| VList (items : list pyval)
| VDict (items : list (pyval * pyval))   (* insertion order, unique keys *)
| VMember (cls : pyclass) (value : pystr). (* a member of an Enum class *)

Inductive pyobj :=
| Class (c : pyclass)
| Value (v : pyval).

(** ** Exceptions

    A message is the f-string of the source: its literal pieces and the
    interpolated values. *)
Inductive fragment :=
| Lit (s : string)
| Fmt (v : pyval)        (* {v} *)
| Repr (v : pyval).      (* %r  *)

Inductive exn :=
| ValueError (msg : list fragment)
| TypeError (msg : list fragment)
| KeyError (key : pyval)
| JSONDecodeError (msg : string).

Inductive result (A : Type) :=
| Ok (a : A)
| Raise (e : exn).
Arguments Ok {A} a.
Arguments Raise {A} e.

Definition bind {A B} (m : result A) (k : A -> result B) : result B :=
  match m with
  | Ok a => k a
  | Raise e => Raise e
  end.

Notation "x <- m ;; k" := (bind m (fun x => k))
  (at level 61, m at next level, right associativity).
Notation "m ;;; k" := (bind m (fun _ => k))
  (at level 61, right associativity).

Definition raises {A} (m : result A) : Prop := exists e, m = Raise e.

(** ** Builtins used by the module *)

Definition pyclass_eq_dec (a b : pyclass) : {a = b} + {a <> b}.
Proof. decide equality. Defined.

Definition pyclass_eqb (a b : pyclass) : bool :=
  if pyclass_eq_dec a b then true else false.

(** [type(v)]. *)
Definition type_of (v : pyval) : pyclass :=
  match v with
  | VNone => CNoneType
  | VBool _ => Cbool
  | VInt _ => Cint
  | VFloat _ => Cfloat
  | VStr _ => Cstr
  | VList _ => Clist
  | VDict _ => Cdict
  | VMember c _ => c
  end.

(** The method resolution order of a class: itself and its bases. *)
Definition mro (c : pyclass) : list pyclass :=
  match c with
  | Cobject => [Cobject]
  | Cbool => [Cbool; Cint; Cobject]
  | CCategory => [CCategory; CEnum; Cobject]
  | CBookCategory => [CBookCategory; CCategory; CEnum; Cobject]
  | CDigitalFormat => [CDigitalFormat; CCategory; CEnum; Cobject]
  | c => [c; Cobject]
  end.

Definition issubclass (c d : pyclass) : bool :=
  existsb (pyclass_eqb d) (mro c).

Definition isinstance_msg : list fragment :=
  [Lit "isinstance() arg 2 must be a type, a tuple of types, or a union"].

(** [isinstance(v, c)]: the second argument has to be a class; any other
    object is rejected with [TypeError]. *)
Definition isinstance (v : pyval) (classinfo : pyobj) : result bool :=
  match classinfo with
  | Class c => Ok (issubclass (type_of v) c)
  | Value _ => Raise (TypeError isinstance_msg)
  end.

(** [v < n] for a value already known to be an [int] (a [bool] counts as
    0 or 1). *)
Definition int_value (v : pyval) : option Z :=
  match v with
  | VInt z => Some z
  | VBool b => Some (if b then 1 else 0)
  | _ => None
  end.

(** Subscripting [d[k]] with a [str] key: a [dict] looks the key up, any
    other value of the model rejects a [str] subscript. *)
Fixpoint dict_get (k : pystr) (items : list (pyval * pyval)) : option pyval :=
  match items with
  | [] => None
  | (VStr k', v) :: rest => if pystr_eqb k k' then Some v else dict_get k rest
  | _ :: rest => dict_get k rest
  end.

Fixpoint dict_set (k : pystr) (v : pyval) (items : list (pyval * pyval))
  : list (pyval * pyval) :=
  match items with
  | [] => [(VStr k, v)]
  | (VStr k', v') :: rest =>
      if pystr_eqb k k' then (VStr k', v) :: rest
      else (VStr k', v') :: dict_set k v rest
  | kv :: rest => kv :: dict_set k v rest
  end.

Definition getitem (d : pyval) (k : pystr) : result pyval :=
  match d with
  | VDict items =>
      match dict_get k items with
      | Some v => Ok v
      | None => Raise (KeyError (VStr k))
      end
  | VStr _ =>
      Raise (TypeError [Lit "string indices must be integers, not 'str'"])
  | VList _ =>
      Raise (TypeError [Lit "list indices must be integers or slices, not str"])
  | _ => Raise (TypeError [Lit "'"; Lit (class_name (type_of d));
                           Lit "' object is not subscriptable"])
  end.

(** [{k: f(k) for k in keys}]: the entries are evaluated in order and the
    first exception ends the comprehension. *)
Fixpoint dict_comprehension (f : pystr -> result pyval) (keys : list pystr)
    (acc : list (pyval * pyval)) : result pyval :=
  match keys with
  | [] => Ok (VDict acc)
  | k :: rest => v <- f k ;; dict_comprehension f rest (dict_set k v acc)
  end.

(** [divmod(a, b)] on integers rounds the quotient down. *)
Definition divmod (a b : Z) : Z * Z := (a / b, a mod b).

(** Decimal digits of a natural number, most significant first.  The fuel
    of [decimal] is the number of binary digits, which is enough for the
    decimal ones ([decimal_spec]). *)
Fixpoint digits_fuel (fuel : nat) (n : N) (acc : pystr) : pystr :=
  match fuel with
  | O => acc
  | S fuel' =>
      let acc' := (48 + n mod 10)%N :: acc in
      if (n / 10 =? 0)%N then acc' else digits_fuel fuel' (n / 10) acc'
  end.

Definition decimal (n : N) : pystr :=
  digits_fuel (S (N.to_nat (N.log2 n))) n [].

(** The decimal text of an [int]. *)
Definition int_repr (z : Z) : pystr :=
  if z <? 0 then 45%N :: decimal (Z.abs_N z) else decimal (Z.abs_N z).

(** The interpreter converts between an [int] and its decimal text up to
    [max_str_digits] digits only, the sign not counted, and raises
    [ValueError] beyond; [int_to_str] is [repr(z)] as it is evaluated. *)
Definition max_str_digits : nat := 4300.

Definition int_digits (z : Z) : nat := List.length (decimal (Z.abs_N z)).

Definition within_limit (digits : nat) : bool :=
  (digits <=? max_str_digits)%nat.

Definition limit_exceeded : exn :=
  ValueError
    [Lit "Exceeds the limit (4300 digits) for integer string conversion";
     Lit "; use sys.set_int_max_str_digits() to increase the limit"].

Definition limit_exceeded_by (digits : nat) : exn :=
  ValueError
    [Lit "Exceeds the limit (4300 digits) for integer string conversion";
     Lit ": value has "; Fmt (VInt (Z.of_nat digits)); Lit " digits";
     Lit "; use sys.set_int_max_str_digits() to increase the limit"].

Definition int_to_str (z : Z) : result pystr :=
  if within_limit (int_digits z) then Ok (int_repr z)
  else Raise limit_exceeded.

(** The format specification [02d]: sign-aware zero padding to width 2. *)
Definition zero_pad (width : nat) (digits : pystr) : pystr :=
  repeat 48%N (width - List.length digits) ++ digits.

Definition format_02d (z : Z) : pystr :=
  if z <? 0 then 45%N :: zero_pad 1 (decimal (Z.abs_N z))
  else zero_pad 2 (decimal (Z.abs_N z)).

(** ** The [json] module: [dumps] and [loads] with their default options *)

Module json.

Definition not_serializable (v : pyval) : exn :=
  TypeError [Lit "Object of type "; Lit (class_name (type_of v));
             Lit " is not JSON serializable"].

Definition bad_key (k : pyval) : exn :=
  TypeError [Lit "keys must be str, int, float, bool or None, not ";
             Lit (class_name (type_of k))].

Definition hex_digit (n : N) : N :=
  if (n <? 10)%N then (48 + n)%N else (87 + n)%N.

(** [\uXXXX] with four lower-case hexadecimal digits. *)
Definition u_escape (n : N) : pystr :=
  [92; 117; hex_digit (N.shiftr n 12 mod 16); hex_digit (N.shiftr n 8 mod 16);
   hex_digit (N.shiftr n 4 mod 16); hex_digit (n mod 16)]%N.

(** The replacement of one character under [ensure_ascii]: quote and
    backslash are escaped, printable ASCII is kept, everything else becomes
    one [\uXXXX] or, above the basic plane, a surrogate pair. *)
Definition escape_char (c : N) : pystr :=
  (if c =? 34 then [92; 34]
   else if c =? 92 then [92; 92]
   else if c =? 10 then [92; 110]
   else if c =? 13 then [92; 114]
   else if c =? 9 then [92; 116]
   else if c =? 8 then [92; 98]
   else if c =? 12 then [92; 102]
   else if (32 <=? c) && (c <=? 126) then [c]
   else if c <? 65536 then u_escape c
   else
     let n := c - 65536 in
     u_escape (N.lor 55296 (N.land (N.shiftr n 10) 1023))
       ++ u_escape (N.lor 56320 (N.land n 1023)))%N.

Definition encode_basestring_ascii (s : pystr) : pystr :=
  34%N :: flat_map escape_char s ++ [34%N].

Fixpoint join (sep : pystr) (parts : list pystr) : pystr :=
  match parts with
  | [] => []
  | [p] => p
  | p :: rest => p ++ sep ++ join sep rest
  end.

(** The text of a dictionary key. *)
Definition encode_key (k : pyval) : result pystr :=
  match k with
  | VStr s => Ok (encode_basestring_ascii s)
  | VNone => Ok (encode_basestring_ascii (ustr "null"))
  | VBool true => Ok (encode_basestring_ascii (ustr "true"))
  | VBool false => Ok (encode_basestring_ascii (ustr "false"))
  | VInt z => t <- int_to_str z ;; Ok (encode_basestring_ascii t)
  | VFloat l => Ok (encode_basestring_ascii l)
  | _ => Raise (bad_key k)
  end.

Fixpoint dumps (v : pyval) : result pystr :=
  match v with
  | VNone => Ok (ustr "null")
  | VBool true => Ok (ustr "true")
  | VBool false => Ok (ustr "false")
  | VInt z => int_to_str z
  | VFloat l => Ok l
  | VStr s => Ok (encode_basestring_ascii s)
  | VList items =>
      parts <- (fix each (l : list pyval) : result (list pystr) :=
                  match l with
                  | [] => Ok []
                  | x :: l' => p <- dumps x ;; ps <- each l' ;; Ok (p :: ps)
                  end) items ;;
      Ok (ustr "[" ++ join (ustr ", ") parts ++ ustr "]")
  | VDict items =>
      parts <- (fix each (l : list (pyval * pyval)) : result (list pystr) :=
                  match l with
                  | [] => Ok []
                  | (k, x) :: l' =>
                      kt <- encode_key k ;;
                      p <- dumps x ;;
                      ps <- each l' ;;
                      Ok ((kt ++ ustr ": " ++ p) :: ps)
                  end) items ;;
      Ok (ustr "{" ++ join (ustr ", ") parts ++ ustr "}")
  | VMember _ _ => Raise (not_serializable v)
  end.

(** *** Decoding *)

Definition err {A} (msg : string) : result A := Raise (JSONDecodeError msg).

Definition expecting_name : string :=
  "Expecting property name enclosed in double quotes".

Definition is_ws (c : N) : bool :=
  ((c =? 32) || (c =? 9) || (c =? 10) || (c =? 13))%N.

Fixpoint skip_ws (s : pystr) : pystr :=
  match s with
  | c :: r => if is_ws c then skip_ws r else s
  | [] => []
  end.

Definition is_digit (c : N) : bool := ((48 <=? c) && (c <=? 57))%N.

Definition hex_value (c : N) : option N :=
  (if (48 <=? c) && (c <=? 57) then Some (c - 48)
   else if (97 <=? c) && (c <=? 102) then Some (c - 87)
   else if (65 <=? c) && (c <=? 70) then Some (c - 55)
   else None)%N.

Definition hex4 (a b c d : N) : option N :=
  match hex_value a, hex_value b, hex_value c, hex_value d with
  | Some x, Some y, Some z, Some w => Some (((x * 16 + y) * 16 + z) * 16 + w)%N
  | _, _, _, _ => None
  end.

Definition is_high_surrogate (c : N) : bool :=
  ((55296 <=? c) && (c <=? 56319))%N.
Definition is_low_surrogate (c : N) : bool :=
  ((56320 <=? c) && (c <=? 57343))%N.

Definition join_surrogates (hi lo : N) : N :=
  (65536 + (N.lor (N.shiftl (N.land hi 1023) 10) (N.land lo 1023)))%N.

Definition backslash (e : N) : option N :=
  (if e =? 34 then Some 34 else if e =? 92 then Some 92
   else if e =? 47 then Some 47 else if e =? 98 then Some 8
   else if e =? 102 then Some 12 else if e =? 110 then Some 10
   else if e =? 114 then Some 13 else if e =? 116 then Some 9
   else None)%N.

(** [scanstring]: the text after an opening quote, up to the closing one;
    returns the decoded string and the text that follows. *)
Fixpoint scanstring (s : pystr) : result (pystr * pystr) :=
  match s with
  | [] => err "Unterminated string starting at"
  | c :: r =>
      if (c =? 34)%N then Ok ([], r)
      else if (c =? 92)%N then
        match r with
        | [] => err "Unterminated string starting at"
        | e :: r1 =>
            if (e =? 117)%N then
              match r1 with
              | a :: b :: c1 :: d :: r2 =>
                  match hex4 a b c1 d with
                  | None => err "Invalid \uXXXX escape"
                  | Some u =>
                      match r2 with
                      | bs :: u2 :: a2 :: b2 :: c2 :: d2 :: r3 =>
                          if is_high_surrogate u && (bs =? 92)%N && (u2 =? 117)%N
                          then
                            match hex4 a2 b2 c2 d2 with
                            | None => err "Invalid \uXXXX escape"
                            | Some l =>
                                if is_low_surrogate l then
                                  p <- scanstring r3 ;;
                                  Ok (join_surrogates u l :: fst p, snd p)
                                else
                                  p <- scanstring r2 ;;
                                  Ok (u :: fst p, snd p)
                            end
                          else p <- scanstring r2 ;; Ok (u :: fst p, snd p)
                      | _ => p <- scanstring r2 ;; Ok (u :: fst p, snd p)
                      end
                  end
              | _ => err "Invalid \uXXXX escape"
              end
            else
              match backslash e with
              | Some x => p <- scanstring r1 ;; Ok (x :: fst p, snd p)
              | None => err "Invalid \escape"
              end
        end
      else if (c <? 32)%N then err "Invalid control character at"
      else p <- scanstring r ;; Ok (c :: fst p, snd p)
  end.

(** Numbers: an optional minus sign, then 0 or a digit string without a
    leading zero, then an optional fraction and an optional exponent. *)
Fixpoint take_digits (s : pystr) : pystr * pystr :=
  match s with
  | c :: r =>
      if is_digit c then let p := take_digits r in (c :: fst p, snd p)
      else ([], s)
  | [] => ([], [])
  end.

Definition digits_value (ds : pystr) : N :=
  fold_left (fun acc c => (acc * 10 + (c - 48))%N) ds 0%N.

Definition match_fraction (s : pystr) : pystr * pystr :=
  match s with
  | dot :: d :: r =>
      if (dot =? 46)%N && is_digit d then
        let p := take_digits r in (dot :: d :: fst p, snd p)
      else ([], s)
  | _ => ([], s)
  end.

Definition match_exponent (s : pystr) : pystr * pystr :=
  match s with
  | e :: r =>
      if (e =? 101)%N || (e =? 69)%N then
        let '(sign, r1) :=
          match r with
          | c :: r' => if (c =? 43)%N || (c =? 45)%N then ([c], r') else ([], r)
          | [] => ([], r)
          end in
        match take_digits r1 with
        | ([], _) => ([], s)
        | (ds, rest) => (e :: sign ++ ds, rest)
        end
      else ([], s)
  | [] => ([], s)
  end.

Definition match_integer (s : pystr) : option (pystr * pystr) :=
  match s with
  | c :: r =>
      if (c =? 48)%N then Some ([c], r)
      else if (49 <=? c)%N && (c <=? 57)%N then
        let p := take_digits r in Some (c :: fst p, snd p)
      else None
  | [] => None
  end.

Definition number_value (negative : bool) (int_part rest : pystr)
  : result (pyval * pystr) :=
  let sign := if negative then [45%N] else [] in
  let '(frac, r1) := match_fraction rest in
  let '(exp, r2) := match_exponent r1 in
  match frac, exp with
  | [], [] =>
      if within_limit (List.length int_part) then
        let n := Z.of_N (digits_value int_part) in
        Ok (VInt (if negative then - n else n), r2)
      else Raise (limit_exceeded_by (List.length int_part))
  | _, _ => Ok (VFloat (sign ++ int_part ++ frac ++ exp), r2)
  end.

Definition match_number (s : pystr) : option (result (pyval * pystr)) :=
  match s with
  | c :: r =>
      if (c =? 45)%N then
        match match_integer r with
        | Some (ds, rest) => Some (number_value true ds rest)
        | None => None
        end
      else
        match match_integer s with
        | Some (ds, rest) => Some (number_value false ds rest)
        | None => None
        end
  | [] => None
  end.

(** [s] starts with the literal [lit]: the text after it. *)
Fixpoint strip_prefix (lit s : pystr) : option pystr :=
  match lit, s with
  | [], _ => Some s
  | a :: lit', b :: s' => if (a =? b)%N then strip_prefix lit' s' else None
  | _ :: _, [] => None
  end.

Definition constants : list (pystr * pyval) :=
  [ (ustr "null", VNone); (ustr "true", VBool true);
    (ustr "false", VBool false); (ustr "NaN", VFloat (ustr "NaN"));
    (ustr "Infinity", VFloat (ustr "Infinity"));
    (ustr "-Infinity", VFloat (ustr "-Infinity")) ].

Fixpoint match_constant (cs : list (pystr * pyval)) (s : pystr)
  : option (pyval * pystr) :=
  match cs with
  | [] => None
  | (lit, v) :: cs' =>
      match strip_prefix lit s with
      | Some rest => Some (v, rest)
      | None => match_constant cs' s
      end
  end.

(** [dict(pairs)]: a repeated key keeps its first position and its last
    value. *)
Definition dict_of_pairs (pairs : list (pystr * pyval)) : pyval :=
  VDict (fold_left (fun d kv => dict_set (fst kv) (snd kv) d) pairs []).

(** [scan_once] and the loops of [JSONObject] and [JSONArray].  [fuel]
    bounds the number of nested and successive values; every call consumes
    at least one character, so the length of the text is enough. *)
Fixpoint scan_once (fuel : nat) (s : pystr) : result (pyval * pystr) :=
  match fuel with
  | O => err "Expecting value"
  | S fuel' =>
      match s with
      | [] => err "Expecting value"
      | c :: r =>
          if (c =? 34)%N then
            p <- scanstring r ;; Ok (VStr (fst p), snd p)
          else if (c =? 123)%N then
            match skip_ws r with
            | c1 :: r1 =>
                if (c1 =? 125)%N then Ok (VDict [], r1)
                else if (c1 =? 34)%N then
                  p <- members fuel' r1 [] ;;
                  Ok (dict_of_pairs (fst p), snd p)
                else err expecting_name
            | [] => err expecting_name
            end
          else if (c =? 91)%N then
            match skip_ws r with
            | c1 :: r1 =>
                if (c1 =? 93)%N then Ok (VList [], r1)
                else p <- elements fuel' (c1 :: r1) [] ;;
                     Ok (VList (fst p), snd p)
            | [] => err "Expecting value"
            end
          else
            match match_constant constants s with
            | Some p => Ok p
            | None =>
                match match_number s with
                | Some p => p
                | None => err "Expecting value"
                end
            end
      end
  end

(** The members of an object, from just after the opening quote of a key. *)
with members (fuel : nat) (s : pystr) (acc : list (pystr * pyval))
  : result (list (pystr * pyval) * pystr) :=
  match fuel with
  | O => err "Expecting value"
  | S fuel' =>
      k <- scanstring s ;;
      match skip_ws (snd k) with
      | colon :: r =>
          if (colon =? 58)%N then
            v <- scan_once fuel' (skip_ws r) ;;
            let acc' := acc ++ [(fst k, fst v)] in
            match skip_ws (snd v) with
            | c :: r1 =>
                if (c =? 125)%N then Ok (acc', r1)
                else if (c =? 44)%N then
                  match skip_ws r1 with
                  | q :: r2 =>
                      if (q =? 34)%N then members fuel' r2 acc'
                      else err expecting_name
                  | [] => err expecting_name
                  end
                else err "Expecting ',' delimiter"
            | [] => err "Expecting ',' delimiter"
            end
          else err "Expecting ':' delimiter"
      | [] => err "Expecting ':' delimiter"
      end
  end

(** The elements of an array, from the first character of an element. *)
with elements (fuel : nat) (s : pystr) (acc : list pyval)
  : result (list pyval * pystr) :=
  match fuel with
  | O => err "Expecting value"
  | S fuel' =>
      v <- scan_once fuel' s ;;
      let acc' := acc ++ [fst v] in
      match skip_ws (snd v) with
      | c :: r1 =>
          if (c =? 93)%N then Ok (acc', r1)
          else if (c =? 44)%N then elements fuel' (skip_ws r1) acc'
          else err "Expecting ',' delimiter"
      | [] => err "Expecting ',' delimiter"
      end
  end.

(** [json.loads(s)] for a [str]. *)
Definition loads (s : pystr) : result pyval :=
  match s with
  | 65279%N :: _ => err "Unexpected UTF-8 BOM (decode using utf-8-sig)"
  | _ =>
      p <- scan_once (S (List.length s)) (skip_ws s) ;;
      match skip_ws (snd p) with
      | [] => Ok (fst p)
      | _ :: _ => err "Extra data"
      end
  end.

End json.

(** ** Enumerations: what the [enum] module does with the classes below

    An Enum class has the members its class body assigns, and no others.
    The metaclass installs [Enum.__new__] as the [__new__] of every Enum
    class, so a call [cls(value)] is a lookup of [value] among the members,
    with the class's [_missing_] hook as the last resort; a [__new__]
    written in the class body is kept aside as [__new_member__] and is only
    used for the members of the class body. *)

Record EnumClass := {
  cls_id : pyclass;
  cls_members : list pystr   (* the values of the members, in order *)
}.

Module Enum.

Definition member (cls : EnumClass) (value : pystr) : pyval :=
  VMember (cls_id cls) value.

Definition not_a_valid (value : pyval) (cls : EnumClass) : exn :=
  ValueError [Repr value; Lit " is not a valid ";
              Lit (class_name (cls_id cls))].

(** [cls._value2member_map_[value]]. *)
Definition value2member (cls : EnumClass) (value : pyval) : option pyval :=
  match value with
  | VStr s =>
      if existsb (pystr_eqb s) (cls_members cls) then Some (member cls s)
      else None
  | _ => None
  end.

(** [Enum.__new__(cls, value)]. *)
Definition __new__ (_missing_ : EnumClass -> pyval -> pyval)
    (cls : EnumClass) (value : pyval) : result pyval :=
  if pyclass_eqb (type_of value) (cls_id cls) then Ok value
  else
    match value2member cls value with
    | Some m => Ok m
    | None =>
        let r := _missing_ cls value in
        if issubclass (type_of r) (cls_id cls) then Ok r
        else
          match r with
          | VNone => Raise (not_a_valid value cls)
          | _ => Raise (TypeError
                   [Lit "error in "; Lit (class_name (cls_id cls));
                    Lit "._missing_: returned "; Repr r;
                    Lit " instead of None or a valid member"])
          end
    end.

End Enum.

(** ** [@dataclass]

    The decorator generates [__init__] from the annotated fields of the
    class body, in order, and refuses a field without a default that comes
    after a field with one. *)
Record field := { f_name : string; f_default : bool }.

Definition required (name : string) : field :=
  {| f_name := name; f_default := false |}.
Definition defaulted (name : string) : field :=
  {| f_name := name; f_default := true |}.

Definition non_default_follows (f : field) : exn :=
  TypeError [Lit "non-default argument "; Repr (VStr (ustr (f_name f)));
             Lit " follows default argument"].

Fixpoint check_defaults (seen_default : bool) (fields : list field)
  : result unit :=
  match fields with
  | [] => Ok tt
  | f :: rest =>
      if f_default f then check_defaults true rest
      else if seen_default then Raise (non_default_follows f)
      else check_defaults seen_default rest
  end.

Definition dataclass (fields : list field) : result unit :=
  check_defaults false fields.

(** The fields without a default that stand after a field with one. *)
Fixpoint misplaced (seen_default : bool) (fields : list field) : list string :=
  match fields with
  | [] => []
  | f :: rest =>
      if f_default f then misplaced true rest
      else if seen_default then f_name f :: misplaced seen_default rest
      else misplaced seen_default rest
  end.

(** ** The module, top to bottom *)

Definition VALID_CATEGORIES : list pystr := map ustr
  [ "Action/Adventure fiction";
    "Children's fiction";
    "Classic fiction";
    "Contemporary fiction";
    "Fantasy";
    "Dark fantasy";
    "Fairy tales";
    "Folktales";
    "Heroic fantasy";
    "High fantasy";
    "Historical fantasy";
    "Low fantasy";
    "Magical realism";
    "Mythic fantasy";
    "Urban fantasy";
    "Graphic novel";
    "Historical fiction";
    "Horror";
    "Body horror";
    "Comedy horror";
    "Gothic horror";
    "Lovecraftian/Cosmic horror";
    "Paranormal horror";
    "Post-apocalyptic horror";
    "Psychological horror";
    "Quiet horror";
    "Slasher";
    "LGBTQ+";
    "Literary fiction";
    "Mystery";
    "Caper";
    "Cozy mystery";
    "Gumshoe/Detective mystery";
    "Historical mystery";
    "Howdunnits";
    "Locked room mystery";
    "Noir";
    "Procedural/Hard-boiled mystery";
    "Supernatural mystery";
    "New adult";
    "Romance";
    "Contemporary romance";
    "Dark romance";
    "Erotic romance";
    "Fantasy romance (Romantasy)";
    "Gothic romance";
    "Historical romance";
    "Paranormal romance";
    "Regency";
    "Romantic comedy";
    "Romantic suspense";
    "Sci-fi romance";
    "Satire";
    "Science fiction";
    "Apocalyptic sci-fi";
    "Colonization sci-fi";
    "Hard sci-fi";
    "Military sci-fi";
    "Mind uploading sci-fi";
    "Parallel world sci-fi";
    "Soft sci-fi";
    "Space opera";
    "Space western";
    "Steampunk";
    "Short story";
    "Thriller";
    "Action thriller";
    "Conspiracy thriller";
    "Disaster thriller";
    "Espionage thriller";
    "Forensic thriller";
    "Historical thriller";
    "Legal thriller";
    "Paranormal thriller";
    "Psychological thriller";
    "Religious thriller";
    "Western";
    "Women's fiction";
    "Young adult";
    "Art & photography";
    "Autobiography/Memoir";
    "Biography";
    "Essays";
    "Food & drink";
    "History";
    "How-To/Guides";
    "Humanities & social sciences";
    "Humor";
    "Parenting";
    "Philosophy";
    "Religion & spirituality";
    "Science & technology";
    "Self-help";
    "Travel";
    "True crime" ]%string.

Definition EBOOK_FORMATS : list pystr := map ustr
  [ "EPUB";
    "PDF";
    "MOBI";
    "AZW";
    "AZW3";
    "KFX";
    "IBA";
    "FB2";
    "LIT";
    "PRC";
    "TXT";
    "RTF";
    "HTML" ]%string.

Definition AUDIOBOOK_FORMATS : list pystr := map ustr
  [ "MP3";
    "AAC";
    "M4A";
    "M4B";
    "WMA";
    "OGG";
    "FLAC";
    "WAV";
    "AA";
    "AAX" ]%string.

(** [class Category(Enum)]: no members, one hook.  [lower] is [str.lower]. *)
Module Category.

Definition _missing_ (lower : pystr -> pystr) (cls : EnumClass)
    (value : pyval) : pyval :=
  match value with
  | VStr s =>
      match find (fun m => pystr_eqb (lower m) (lower s)) (cls_members cls) with
      | Some m => Enum.member cls m
      | None => VNone
      end
  | _ => VNone
  end.

End Category.

(** [class BookCategory(Category)]: the class body defines [__new__] and
    [create_categories] and assigns no member. *)
Module BookCategory.

Definition cls : EnumClass :=
  {| cls_id := CBookCategory; cls_members := [] |}.

(** The [__new__] of the class body. *)
Definition __new_member__ (category : pyval) : result pyval :=
  match category with
  | VStr s =>
      if existsb (pystr_eqb s) VALID_CATEGORIES
      then Ok (VMember CBookCategory s)
      else Raise (ValueError [Lit "Invalid category "; Fmt category])
  | _ => Raise (ValueError [Lit "Invalid category "; Fmt category])
  end.

(** The call [cls(value)]. *)
Definition call (lower : pystr -> pystr) (value : pyval) : result pyval :=
  Enum.__new__ (Category._missing_ lower) cls value.

Definition create_categories (lower : pystr -> pystr) : result pyval :=
  dict_comprehension (fun category => call lower (VStr category))
    VALID_CATEGORIES [].

End BookCategory.

(** [ascii_lower] is [str.lower] on ASCII text, which every label is. *)
Definition ascii_lower (s : pystr) : pystr :=
  map (fun c => if (65 <=? c)%N && (c <=? 90)%N then (c + 32)%N else c) s.

(** The error kinds of the value objects, as the code raises them. *)
Definition InvalidCategory (category : pyval) : exn :=
  ValueError [Lit "Invalid category "; Fmt category].

Definition InvalidShelfNumber (shelf : pyval) : exn :=
  ValueError [Lit "Invalid shelf number "; Fmt shelf].

(** A dataclass stores the arguments of its generated [__init__] in the
    fields and then runs [__post_init__]; the object exists for the caller
    only if that returns.  The fields are not type checked, so they hold
    arbitrary values.  A call of the class needs the class statement to have
    succeeded, for the name to denote a class at all.

    [__post_init__] reads the global name [BookCategory] when it runs;
    [G_BookCategory] is the value the name is bound to at that time. *)
Module LibraryLocation.

Record t := { category : pyval; shelf : pyval }.

(** [asdict(self)]: the values of the model hold no dataclass instance, so
    the copy [asdict] makes of a field is the field. *)
Definition dict_representation (self : t) : pyval :=
  VDict [ (VStr (ustr "category"), category self);
          (VStr (ustr "shelf"), shelf self) ].

Definition json_representation (self : t) : result pystr :=
  json.dumps (dict_representation self).

Definition __post_init__ (G_BookCategory : pyobj) (self : t) : result unit :=
  is_category <- isinstance (category self) G_BookCategory ;;
  if negb is_category then Raise (InvalidCategory (category self))
  else
    is_int <- isinstance (shelf self) (Class Cint) ;;
    if negb is_int
       || match int_value (shelf self) with
          | Some z => z <? 1
          | None => true
          end
    then Raise (InvalidShelfNumber (shelf self))
    else Ok tt.

Definition __init__ (G_BookCategory : pyobj) (category shelf : pyval)
  : result t :=
  let self := {| category := category; shelf := shelf |} in
  __post_init__ G_BookCategory self ;;; Ok self.

Definition fields : list field := [required "category"; required "shelf"].

Definition class_statement : result unit := dataclass fields.

(** The call [LibraryLocation(category, shelf)]. *)
Definition new (G_BookCategory : pyobj) (category shelf : pyval) : result t :=
  class_statement ;;; __init__ G_BookCategory category shelf.

Definition from_dict (G_BookCategory : pyobj) (data : pyval) : result t :=
  c <- getitem data (ustr "category") ;;
  s <- getitem data (ustr "shelf") ;;
  new G_BookCategory c s.

Definition from_json (G_BookCategory : pyobj) (json_str : pystr) : result t :=
  data <- json.loads json_str ;;
  from_dict G_BookCategory data.

Definition __str__ (self : t) : list fragment :=
  [Fmt (category self); Lit " - Shelf "; Fmt (shelf self)].

End LibraryLocation.

Module BookSeries.

Record t := { series : pyval; number : pyval }.

Definition dict_representation (self : t) : pyval :=
  VDict [ (VStr (ustr "series"), series self);
          (VStr (ustr "number"), number self) ].

Definition json_representation (self : t) : result pystr :=
  json.dumps (dict_representation self).

Definition __init__ (series number : pyval) : result t :=
  Ok {| series := series; number := number |}.

Definition fields : list field := [required "series"; required "number"].

Definition class_statement : result unit := dataclass fields.

(** The call [BookSeries(series, number)]. *)
Definition new (series number : pyval) : result t :=
  class_statement ;;; __init__ series number.

Definition from_dict (data : pyval) : result t :=
  s <- getitem data (ustr "series") ;;
  n <- getitem data (ustr "number") ;;
  new s n.

Definition from_json (json_str : pystr) : result t :=
  data <- json.loads json_str ;;
  from_dict data.

Definition __str__ (self : t) : list fragment :=
  [Fmt (series self); Lit " - Book "; Fmt (number self)].

End BookSeries.

Module BookFormat.

Inductive t := HARDCOVER | PAPERBACK | AUDIOBOOK | EBOOK.

Definition eq_dec (a b : t) : {a = b} + {a <> b}.
Proof. decide equality. Defined.

Definition eqb (a b : t) : bool := if eq_dec a b then true else false.

Definition value (self : t) : string :=
  match self with
  | HARDCOVER => "Hardcover"
  | PAPERBACK => "Paperback"
  | AUDIOBOOK => "Audiobook"
  | EBOOK => "E-book"
  end.

(** [str(self)]. *)
Definition str (self : t) : string :=
  match self with
  | HARDCOVER => "BookFormat.HARDCOVER"
  | PAPERBACK => "BookFormat.PAPERBACK"
  | AUDIOBOOK => "BookFormat.AUDIOBOOK"
  | EBOOK => "BookFormat.EBOOK"
  end.

Definition is_physical (self : t) : bool :=
  existsb (eqb self) [HARDCOVER; PAPERBACK].

End BookFormat.

Module BookStatus.

Inductive t := AVAILABLE | CHECKED_OUT | ON_HOLD | IN_REPAIR.

Definition eq_dec (a b : t) : {a = b} + {a <> b}.
Proof. decide equality. Defined.

Definition eqb (a b : t) : bool := if eq_dec a b then true else false.

(** [auto()] numbers the members from 1. *)
Definition value (self : t) : Z :=
  match self with
  | AVAILABLE => 1 | CHECKED_OUT => 2 | ON_HOLD => 3 | IN_REPAIR => 4
  end.

Definition str (self : t) : string :=
  match self with
  | AVAILABLE => "BookStatus.AVAILABLE"
  | CHECKED_OUT => "BookStatus.CHECKED_OUT"
  | ON_HOLD => "BookStatus.ON_HOLD"
  | IN_REPAIR => "BookStatus.IN_REPAIR"
  end.

(** [list(cls)]: the members in definition order. *)
Definition members : list t := [AVAILABLE; CHECKED_OUT; ON_HOLD; IN_REPAIR].

Definition get_valid_statuses (book_format : BookFormat.t) : list t :=
  if BookFormat.is_physical book_format then members else [AVAILABLE].

End BookStatus.

(** [class DigitalFormat(Category)], built like [BookCategory]. *)
Module DigitalFormat.

Definition cls : EnumClass :=
  {| cls_id := CDigitalFormat; cls_members := [] |}.

Definition __new_member__ (formats : pyval) : result pyval :=
  match formats with
  | VStr s =>
      if existsb (pystr_eqb s) (EBOOK_FORMATS ++ AUDIOBOOK_FORMATS)
      then Ok (VMember CDigitalFormat s)
      else Raise (ValueError [Lit "Invalid digital format "; Fmt formats])
  | _ => Raise (ValueError [Lit "Invalid digital format "; Fmt formats])
  end.

Definition call (lower : pystr -> pystr) (value : pyval) : result pyval :=
  Enum.__new__ (Category._missing_ lower) cls value.

Definition create_formats (lower : pystr -> pystr) : result pyval :=
  dict_comprehension (fun format => call lower (VStr format))
    (EBOOK_FORMATS ++ AUDIOBOOK_FORMATS) [].

End DigitalFormat.

Module BookCondition.

Inductive t := NEW | EXCELLENT | GOOD | FAIR | POOR.

Definition eq_dec (a b : t) : {a = b} + {a <> b}.
Proof. decide equality. Defined.

Definition eqb (a b : t) : bool := if eq_dec a b then true else false.

Definition value (self : t) : Z :=
  match self with
  | NEW => 1 | EXCELLENT => 2 | GOOD => 3 | FAIR => 4 | POOR => 5
  end.

Definition members : list t := [NEW; EXCELLENT; GOOD; FAIR; POOR].

Definition get_valid_conditions (book_format : BookFormat.t) : list t :=
  if BookFormat.is_physical book_format then members else [NEW].

End BookCondition.

(** ** [datetime.timedelta]

    A duration is kept normalised: [0 <= seconds < 86400] and
    [0 <= microseconds < 1000000], the rest is carried by [days]. *)
Module timedelta.

Record t := { days : Z; seconds : Z; microseconds : Z }.

Definition normalised (d : t) : Prop :=
  0 <= seconds d < 86400 /\ 0 <= microseconds d < 1000000.

(** [timedelta(days=d, seconds=s, microseconds=us)]. *)
Definition new (d s us : Z) : t :=
  let total := (d * 86400 + s) * 1000000 + us in
  let rest := total mod 86400000000 in
  {| days := total / 86400000000;
     seconds := rest / 1000000;
     microseconds := rest mod 1000000 |}.

(** The whole seconds of the duration, sub-second precision dropped. *)
Definition whole_seconds (d : t) : Z := days d * 86400 + seconds d.

End timedelta.

(** ** [class Book] *)
Module Book.

Definition fields : list field :=
  [ required "title"; defaulted "authors"; required "isbn";
    required "publication_date"; required "publisher"; required "edition";
    defaulted "genres"; required "number_of_pages"; required "language";
    required "format"; required "summary"; required "cover_image_url";
    required "current_status"; defaulted "location_in_library";
    required "date_added"; required "purchase_price";
    required "replacement_cost"; required "dewey_decimal";
    defaulted "keywords"; required "reading_level";
    defaulted "series_name_and_num"; defaulted "orig_pub_date";
    defaulted "translator"; defaulted "illustrator"; required "condition";
    defaulted "number_of_times_checked_out"; defaulted "user_ratings";
    defaulted "awards"; required "barcode_number"; defaulted "date_available";
    defaulted "digital_file_format"; defaulted "digital_file_size";
    defaulted "audiobook_length" ].

(** The three fields the methods inspect carry values of their annotated
    types; the others are stored and never looked at. *)
Record t := {
  title : pyval;
  authors : pyval;
  isbn : pyval;
  publication_date : pyval;
  publisher : pyval;
  edition : pyval;
  genres : pyval;
  number_of_pages : pyval;
  language : pyval;
  format : BookFormat.t;
  summary : pyval;
  cover_image_url : pyval;
  current_status : BookStatus.t;
  location_in_library : option LibraryLocation.t;
  date_added : pyval;
  purchase_price : pyval;
  replacement_cost : pyval;
  dewey_decimal : pyval;
  keywords : pyval;
  reading_level : pyval;
  series_name_and_num : option BookSeries.t;
  orig_pub_date : pyval;
  translator : pyval;
  illustrator : pyval;
  condition : BookCondition.t;
  number_of_times_checked_out : pyval;
  user_ratings : pyval;
  awards : pyval;
  barcode_number : pyval;
  date_available : pyval;
  digital_file_format : pyval;
  digital_file_size : pyval;
  audiobook_length : option timedelta.t
}.

(** [self.current_status = s]. *)
Definition with_status (self : t) (s : BookStatus.t) : t :=
  {| title := title self; authors := authors self; isbn := isbn self;
     publication_date := publication_date self; publisher := publisher self;
     edition := edition self; genres := genres self;
     number_of_pages := number_of_pages self; language := language self;
     format := format self; summary := summary self;
     cover_image_url := cover_image_url self;
     current_status := s;
     location_in_library := location_in_library self;
     date_added := date_added self; purchase_price := purchase_price self;
     replacement_cost := replacement_cost self;
     dewey_decimal := dewey_decimal self; keywords := keywords self;
     reading_level := reading_level self;
     series_name_and_num := series_name_and_num self;
     orig_pub_date := orig_pub_date self; translator := translator self;
     illustrator := illustrator self; condition := condition self;
     number_of_times_checked_out := number_of_times_checked_out self;
     user_ratings := user_ratings self; awards := awards self;
     barcode_number := barcode_number self;
     date_available := date_available self;
     digital_file_format := digital_file_format self;
     digital_file_size := digital_file_size self;
     audiobook_length := audiobook_length self |}.

(** The two messages behind the error kind [InvalidStatusForFormat]. *)
Definition invalid_status (s : BookStatus.t) (f : BookFormat.t) : exn :=
  ValueError [Lit "Invalid status "; Lit (BookStatus.str s);
              Lit " for book format "; Lit (BookFormat.str f)].

Definition cannot_set_status (s : BookStatus.t) (f : BookFormat.t) : exn :=
  ValueError [Lit "Cannot set status "; Lit (BookStatus.str s);
              Lit " for "; Lit (BookFormat.str f); Lit " book"].

Definition __post_init__ (self : t) : result unit :=
  let valid_statuses := BookStatus.get_valid_statuses (format self) in
  if negb (existsb (BookStatus.eqb (current_status self)) valid_statuses)
  then Raise (invalid_status (current_status self) (format self))
  else Ok tt.

(** The generated [__init__]: [args] are the fields as the caller gives
    them. *)
Definition __init__ (args : t) : result t :=
  __post_init__ args ;;; Ok args.

(** [self.set_status(new_status)]: the outcome of the call and the object
    after it. *)
Definition set_status (new_status : BookStatus.t) (self : t)
  : result unit * t :=
  let valid_statuses := BookStatus.get_valid_statuses (format self) in
  if negb (existsb (BookStatus.eqb new_status) valid_statuses)
  then (Raise (cannot_set_status new_status (format self)), self)
  else (Ok tt, with_status self new_status).

Definition format_audiobook_length (self : t) : pystr :=
  match audiobook_length self with
  | None => ustr "N/A"
  | Some length =>
      let '(hours, remainder) := divmod (timedelta.seconds length) 3600 in
      let '(minutes, seconds) := divmod remainder 60 in
      format_02d hours ++ ustr ":" ++ format_02d minutes
        ++ ustr ":" ++ format_02d seconds
  end.

Definition class_statement : result unit := dataclass fields.

(** The call [Book(...)]. *)
Definition new (args : t) : result t :=
  class_statement ;;; __init__ args.

End Book.

(** ** Import of the module

    The statements of the module run in order and the first exception ends
    the import.  [globals] is what the two rebound names denote once the
    import is over. *)
Record globals := { g_BookCategory : pyobj; g_DigitalFormat : pyobj }.

Definition module_init (lower : pystr -> pystr) : result globals :=
  categories <- BookCategory.create_categories lower ;;
  LibraryLocation.class_statement ;;;
  BookSeries.class_statement ;;;
  formats <- DigitalFormat.create_formats lower ;;
  Book.class_statement ;;;
  Ok {| g_BookCategory := Value categories;
        g_DigitalFormat := Value formats |}.

(** What a program gets that imports the module and then uses its names:
    the exception of the import, if the import raises. *)
Definition after_import {A : Type} (lower : pystr -> pystr)
    (use : globals -> result A) : result A :=
  g <- module_init lower ;; use g.

(** ** Notions used in the statements *)



(** A canonical entry of the category registry. *)
Definition entry (label : string) : pyval := VMember CBookCategory (ustr label).

(** A book whose uninspected fields hold fixed values. *)
Definition sample_book (f : BookFormat.t) (s : BookStatus.t)
    (c : BookCondition.t) (length : option timedelta.t) : Book.t :=
  {| Book.title := VStr (ustr "Dune");
     Book.authors := VList [VStr (ustr "Frank Herbert")];
     Book.isbn := VStr (ustr "9780441172719");
     Book.publication_date := VStr (ustr "1965-08-01");
     Book.publisher := VStr (ustr "Chilton Books");
     Book.edition := VInt 1;
     Book.genres := VList [VStr (ustr "Science fiction")];
     Book.number_of_pages := VInt 412;
     Book.language := VStr (ustr "English");
     Book.format := f;
     Book.summary := VStr (ustr "Arrakis");
     Book.cover_image_url := VStr (ustr "dune.png");
     Book.current_status := s;
     Book.location_in_library := None;
     Book.date_added := VStr (ustr "2024-01-01");
     Book.purchase_price := VFloat (ustr "9.99");
     Book.replacement_cost := VFloat (ustr "12.5");
     Book.dewey_decimal := VStr (ustr "813.54");
     Book.keywords := VList [];
     Book.reading_level := VStr (ustr "Adult");
     Book.series_name_and_num := None;
     Book.orig_pub_date := VNone;
     Book.translator := VNone;
     Book.illustrator := VNone;
     Book.condition := c;
     Book.number_of_times_checked_out := VInt 0;
     Book.user_ratings := VDict [];
     Book.awards := VList [];
     Book.barcode_number := VStr (ustr "0001");
     Book.date_available := VNone;
     Book.digital_file_format := VNone;
     Book.digital_file_size := VNone;
     Book.audiobook_length := length |}.

(** Two books agree on every field except [current_status]. *)
Definition same_but_status (a b : Book.t) : Prop :=
  Book.title a = Book.title b /\ Book.authors a = Book.authors b /\
  Book.isbn a = Book.isbn b /\
  Book.publication_date a = Book.publication_date b /\
  Book.publisher a = Book.publisher b /\ Book.edition a = Book.edition b /\
  Book.genres a = Book.genres b /\
  Book.number_of_pages a = Book.number_of_pages b /\
  Book.language a = Book.language b /\ Book.format a = Book.format b /\
  Book.summary a = Book.summary b /\
  Book.cover_image_url a = Book.cover_image_url b /\
  Book.location_in_library a = Book.location_in_library b /\
  Book.date_added a = Book.date_added b /\
  Book.purchase_price a = Book.purchase_price b /\
  Book.replacement_cost a = Book.replacement_cost b /\
  Book.dewey_decimal a = Book.dewey_decimal b /\
  Book.keywords a = Book.keywords b /\
  Book.reading_level a = Book.reading_level b /\
  Book.series_name_and_num a = Book.series_name_and_num b /\
  Book.orig_pub_date a = Book.orig_pub_date b /\
  Book.translator a = Book.translator b /\
  Book.illustrator a = Book.illustrator b /\
  Book.condition a = Book.condition b /\
  Book.number_of_times_checked_out a = Book.number_of_times_checked_out b /\
  Book.user_ratings a = Book.user_ratings b /\
  Book.awards a = Book.awards b /\
  Book.barcode_number a = Book.barcode_number b /\
  Book.date_available a = Book.date_available b /\
  Book.digital_file_format a = Book.digital_file_format b /\
  Book.digital_file_size a = Book.digital_file_size b /\
  Book.audiobook_length a = Book.audiobook_length b.

(** The books a program can hold: built by the initialiser, then passed
    through any number of [set_status] calls, whatever their outcome. *)
Inductive reachable : Book.t -> Prop :=
| reach_init (args b : Book.t) :
    Book.__init__ args = Ok b -> reachable b
| reach_set_status (b : Book.t) (n : BookStatus.t) :
    reachable b -> reachable (snd (Book.set_status n b)).

(** [HH:MM:SS] of a number of seconds. *)
Definition hms (total : Z) : pystr :=
  format_02d (total / 3600) ++ ustr ":" ++ format_02d (total mod 3600 / 60)
    ++ ustr ":" ++ format_02d (total mod 60).

(** The rendering as the specification words it: the whole seconds of the
    duration, hours being their full quotient by 3600. *)
Definition spec_audiobook_length (length : option timedelta.t) : pystr :=
  match length with
  | None => ustr "N/A"
  | Some d => hms (timedelta.whole_seconds d)
  end.

(** A value free of Enum members, at any depth. *)
Fixpoint plain (v : pyval) : bool :=
  match v with
  | VMember _ _ => false
  | VList items => forallb plain items
  | VDict items => forallb (fun kv => plain (fst kv) && plain (snd kv)) items
  | _ => true
  end.

(** A code point that is a Unicode scalar value: in range and not a
    surrogate. *)
Definition scalar_value (c : N) : bool :=
  ((c <? 55296) || ((57344 <=? c) && (c <? 1114112)))%N.

(** Case analysis on a computation known to return. *)
Ltac break_result H :=
  repeat match type of H with
  | bind ?m _ = Ok _ =>
      let E := fresh "E" in
      destruct m eqn:E; cbn [bind] in H; [| discriminate H]
  | json.err _ = Ok _ => discriminate H
  | Raise _ = Ok _ => discriminate H
  | (if ?c then _ else _) = Ok _ => destruct c
  | match ?x with _ => _ end = Ok _ =>
      let E := fresh "E" in destruct x eqn:E
  end.

Definition plain_pairs (pairs : list (pystr * pyval)) : bool :=
  forallb (fun kv => plain (snd kv)) pairs.

Definition plain_items (items : list (pyval * pyval)) : bool :=
  forallb (fun kv => plain (fst kv) && plain (snd kv)) items.

(** The JSON text of a location, in the wire shape of the specification:
    an object with the keys [category] and [shelf]. *)
Definition location_text (label : string) (shelf : Z) : pystr :=
  [123; 34]%N ++ ustr "category" ++ [34; 58; 32; 34]%N ++ ustr label
    ++ [34; 44; 32; 34]%N ++ ustr "shelf" ++ [34; 58; 32]%N
    ++ int_repr shelf ++ [125]%N.

(** The JSON text of the series [s], number [n]: an object with the keys
    [series] and [number], in the separators of [json.dumps]. *)
Definition series_text (s : pystr) (n : Z) : pystr :=
  [123; 34]%N ++ ustr "series" ++ [34; 58; 32; 34]%N
    ++ flat_map json.escape_char s ++ [34; 44; 32; 34]%N ++ ustr "number"
    ++ [34; 58; 32]%N ++ int_repr n ++ [125]%N.

(** Proof steps: one character of white space or punctuation read, and
    integer division by a constant in [lia]. *)
Ltac step_ws :=
  cbn [bind fst snd app json.skip_ws json.is_ws N.eqb Pos.eqb orb].

Ltac Zify.zify_post_hook ::= Z.to_euclidean_division_equations.

(** A printable ASCII character. *)
Definition printable (c : N) : bool := ((32 <=? c) && (c <=? 126))%N.

(** The two decimal digits of a number below 100. *)
Definition two_digits (z : Z) : pystr :=
  [Z.to_N (48 + z / 10); Z.to_N (48 + z mod 10)].

(** A book with an audio duration. *)
Definition audiobook (length : timedelta.t) : Book.t :=
  sample_book BookFormat.AUDIOBOOK BookStatus.AVAILABLE BookCondition.NEW
    (Some length).

(** * Properties *)

(** ** Format policy *)

Lemma BookStatus_eqb_eq (a b : BookStatus.t) :
  BookStatus.eqb a b = true <-> a = b.
Proof.
  unfold BookStatus.eqb; destruct (BookStatus.eq_dec a b); split;
    congruence.
Qed.

Lemma status_in_iff (n : BookStatus.t) (l : list BookStatus.t) :
  existsb (BookStatus.eqb n) l = true <-> In n l.
Proof.
  rewrite existsb_exists; split.
  - intros [x [Hin Heq]]. apply BookStatus_eqb_eq in Heq. now subst.
  - intro Hin. exists n. split; [assumption | now apply BookStatus_eqb_eq].
Qed.

Lemma physical_iff (f : BookFormat.t) :
  BookFormat.is_physical f = true <->
  f = BookFormat.HARDCOVER \/ f = BookFormat.PAPERBACK.
Proof.
  destruct f; cbn; split; intros H; try reflexivity; try discriminate;
    auto; destruct H; discriminate.
Qed.

Lemma every_status_listed (s : BookStatus.t) : In s BookStatus.members.
Proof. destruct s; cbn; tauto. Qed.

Lemma every_condition_listed (c : BookCondition.t) :
  In c BookCondition.members.
Proof. destruct c; cbn; tauto. Qed.

(** C4.  On Hardcover and Paperback [get_valid_statuses] returns the four
    statuses and [get_valid_conditions] the five conditions, each once and
    in definition order, so that every status and every condition is
    listed; on Audiobook and E-book they return [[AVAILABLE]] and [[NEW]].
    Both are functions over the four formats: every format has a result. *)
Theorem format_policy_tables (f : BookFormat.t) :
  match f with
  | BookFormat.HARDCOVER | BookFormat.PAPERBACK =>
      BookFormat.is_physical f = true /\
      BookStatus.get_valid_statuses f =
        [BookStatus.AVAILABLE; BookStatus.CHECKED_OUT; BookStatus.ON_HOLD;
         BookStatus.IN_REPAIR] /\
      BookCondition.get_valid_conditions f =
        [BookCondition.NEW; BookCondition.EXCELLENT; BookCondition.GOOD;
         BookCondition.FAIR; BookCondition.POOR] /\
      (forall s, In s (BookStatus.get_valid_statuses f)) /\
      (forall c, In c (BookCondition.get_valid_conditions f))
  | BookFormat.AUDIOBOOK | BookFormat.EBOOK =>
      BookFormat.is_physical f = false /\
      BookStatus.get_valid_statuses f = [BookStatus.AVAILABLE] /\
      BookCondition.get_valid_conditions f = [BookCondition.NEW]
  end.
Proof.
  destruct f; cbn; repeat split;
    first [apply every_status_listed | apply every_condition_listed].
Qed.

(** ** The status of a book *)

Lemma with_status_same (b : Book.t) (n : BookStatus.t) :
  Book.current_status (Book.with_status b n) = n /\
  same_but_status b (Book.with_status b n).
Proof. split; [reflexivity | unfold same_but_status; cbn; tauto]. Qed.

Lemma with_status_id (b : Book.t) :
  Book.with_status b (Book.current_status b) = b.
Proof. now destruct b. Qed.

Lemma set_status_cases (b : Book.t) (n : BookStatus.t) :
  (In n (BookStatus.get_valid_statuses (Book.format b)) /\
   Book.set_status n b = (Ok tt, Book.with_status b n))
  \/
  (~ In n (BookStatus.get_valid_statuses (Book.format b)) /\
   Book.set_status n b =
     (Raise (Book.cannot_set_status n (Book.format b)), b)).
Proof.
  unfold Book.set_status.
  destruct (existsb (BookStatus.eqb n)
              (BookStatus.get_valid_statuses (Book.format b))) eqn:E; cbn.
  - left. split; [now apply status_in_iff | reflexivity].
  - right. split; [| reflexivity].
    intro Hin. apply status_in_iff in Hin. congruence.
Qed.

(** C6.  For every book [b] and status [n], [set_status n] either finds
    [n] among the valid statuses of the book's format, returns normally and
    leaves a book whose [current_status] is [n] and whose other fields are
    those of [b]; or it does not find it, raises the [ValueError] of
    [InvalidStatusForFormat] and leaves [b] itself.  So the call fails
    exactly when [n] is not valid for the format. *)
Theorem set_status_guarded (b : Book.t) (n : BookStatus.t) :
  let outcome := fst (Book.set_status n b) in
  let b' := snd (Book.set_status n b) in
  (In n (BookStatus.get_valid_statuses (Book.format b)) /\
   outcome = Ok tt /\
   Book.current_status b' = n /\ same_but_status b b')
  \/
  (~ In n (BookStatus.get_valid_statuses (Book.format b)) /\
   outcome = Raise (Book.cannot_set_status n (Book.format b)) /\
   b' = b).
Proof.
  cbv zeta.
  destruct (set_status_cases b n) as [[Hin Heq] | [Hnin Heq]]; rewrite Heq.
  - left. cbn [fst snd]. split; [assumption |]. split; [reflexivity |].
    apply with_status_same.
  - right. cbn [fst snd]. auto.
Qed.

Lemma init_valid (args b : Book.t) :
  Book.__init__ args = Ok b ->
  b = args /\
  In (Book.current_status b) (BookStatus.get_valid_statuses (Book.format b)).
Proof.
  unfold Book.__init__, Book.__post_init__.
  destruct (existsb (BookStatus.eqb (Book.current_status args))
              (BookStatus.get_valid_statuses (Book.format args))) eqn:E;
    cbn; intro H; [| discriminate].
  injection H as <-. split; [reflexivity | now apply status_in_iff].
Qed.

Lemma set_status_format (b : Book.t) (n : BookStatus.t) :
  Book.format (snd (Book.set_status n b)) = Book.format b.
Proof.
  destruct (set_status_cases b n) as [[_ ->] | [_ ->]]; reflexivity.
Qed.

Lemma reachable_valid (b : Book.t) :
  reachable b ->
  In (Book.current_status b) (BookStatus.get_valid_statuses (Book.format b)).
Proof.
  induction 1 as [args b Hinit | b n Hreach IH].
  - now apply init_valid in Hinit.
  - rewrite set_status_format.
    destruct (set_status_cases b n) as [[Hin ->] | [_ ->]]; cbn [snd].
    + exact Hin.
    + exact IH.
Qed.

(** C7.  A book obtained from the initialiser and any sequence of
    [set_status] calls, failed ones included, has its [current_status]
    among the valid statuses of its format.  If the format is physical,
    every [set_status n] succeeds and leaves the status [n], so each status
    is one call away from each other.  If it is not, the status is
    [AVAILABLE], [set_status AVAILABLE] succeeds and leaves the book as it
    was, and every other target makes the call fail and leaves the book as
    it was. *)
Theorem status_machine (b : Book.t) (Hb : reachable b) :
  In (Book.current_status b) (BookStatus.get_valid_statuses (Book.format b))
  /\
  if BookFormat.is_physical (Book.format b) then
    forall n, Book.set_status n b = (Ok tt, Book.with_status b n) /\
              Book.current_status (snd (Book.set_status n b)) = n /\
              reachable (snd (Book.set_status n b))
  else
    Book.current_status b = BookStatus.AVAILABLE /\
    Book.set_status BookStatus.AVAILABLE b = (Ok tt, b) /\
    forall n, n <> BookStatus.AVAILABLE ->
      Book.set_status n b =
        (Raise (Book.cannot_set_status n (Book.format b)), b).
Proof.
  pose proof (reachable_valid b Hb) as Hvalid.
  split; [exact Hvalid |].
  unfold Book.set_status, BookStatus.get_valid_statuses in *.
  destruct (BookFormat.is_physical (Book.format b)) eqn:Ephys.
  - intro n.
    assert (Hn : existsb (BookStatus.eqb n) BookStatus.members = true)
      by (apply status_in_iff, every_status_listed).
    rewrite Hn; cbn [negb fst snd]. repeat split.
    replace (Book.with_status b n) with (snd (Book.set_status n b)).
    + now apply reach_set_status.
    + unfold Book.set_status, BookStatus.get_valid_statuses.
      rewrite Ephys, Hn. reflexivity.
  - destruct Hvalid as [Hav | []].
    split; [now symmetry |]. split.
    + cbn. rewrite Hav. now rewrite with_status_id.
    + intros n Hn. destruct n; cbn; congruence.
Qed.

(** A hardcover book in repair is made available. *)
Lemma status_machine_witness :
  reachable (sample_book BookFormat.HARDCOVER BookStatus.IN_REPAIR
               BookCondition.GOOD None)
  /\ Book.set_status BookStatus.AVAILABLE
       (sample_book BookFormat.HARDCOVER BookStatus.IN_REPAIR
          BookCondition.GOOD None)
     = (Ok tt, sample_book BookFormat.HARDCOVER BookStatus.AVAILABLE
                 BookCondition.GOOD None).
Proof.
  assert (H : reachable (sample_book BookFormat.HARDCOVER
                           BookStatus.IN_REPAIR BookCondition.GOOD None))
    by (apply (reach_init
                 (sample_book BookFormat.HARDCOVER BookStatus.IN_REPAIR
                    BookCondition.GOOD None)); reflexivity).
  split; [exact H |].
  exact (proj1 (proj2 (status_machine _ H) BookStatus.AVAILABLE)).
Defined.

(** ** Construction of a book *)

(** The initialiser looks at the status and the format only. *)
Lemma init_cases (args : Book.t) :
  (In (Book.current_status args)
      (BookStatus.get_valid_statuses (Book.format args)) /\
   Book.__init__ args = Ok args)
  \/
  (~ In (Book.current_status args)
        (BookStatus.get_valid_statuses (Book.format args)) /\
   Book.__init__ args =
     Raise (Book.invalid_status (Book.current_status args)
              (Book.format args))).
Proof.
  unfold Book.__init__, Book.__post_init__.
  destruct (existsb (BookStatus.eqb (Book.current_status args))
              (BookStatus.get_valid_statuses (Book.format args))) eqn:E; cbn.
  - left. split; [now apply status_in_iff | reflexivity].
  - right. split; [| reflexivity].
    intro Hin. apply status_in_iff in Hin. congruence.
Qed.

(** C2.  The initialiser accepts an E-book in condition [POOR], which is
    not among the valid conditions of the format: [__post_init__] checks
    the status and never calls [get_valid_conditions]. *)
Theorem condition_not_checked :
  let args := sample_book BookFormat.EBOOK BookStatus.AVAILABLE
                BookCondition.POOR None in
  ~ In (Book.condition args)
       (BookCondition.get_valid_conditions (Book.format args)) /\
  Book.__init__ args = Ok args.
Proof.
  cbv zeta. split; [| reflexivity].
  cbn. intros [H | []]. discriminate.
Qed.

(** ** The class statement of [Book] *)

(** C10.  Seventeen fields of [Book] have no default and stand after a
    field that has one; [@dataclass] rejects the first of them, [isbn],
    with [TypeError], so the class statement fails and every call
    [Book(...)] raises, whatever the arguments. *)
Theorem book_class_rejected :
  misplaced false Book.fields =
    [ "isbn"; "publication_date"; "publisher"; "edition"; "number_of_pages";
      "language"; "format"; "summary"; "cover_image_url"; "current_status";
      "date_added"; "purchase_price"; "replacement_cost"; "dewey_decimal";
      "reading_level"; "condition"; "barcode_number" ]%string
  /\ Book.class_statement = Raise (non_default_follows (required "isbn"))
  /\ forall args : Book.t,
       Book.new args = Raise (non_default_follows (required "isbn")).
Proof. repeat split. Qed.

(** The two value objects pass the same check. *)
Lemma value_object_classes_accepted :
  LibraryLocation.class_statement = Ok tt /\
  BookSeries.class_statement = Ok tt.
Proof. split; reflexivity. Qed.

(** [@dataclass] accepts a field list exactly when no field is misplaced. *)
Lemma dataclass_accepts_iff (fields : list field) :
  dataclass fields = Ok tt <-> misplaced false fields = [].
Proof.
  unfold dataclass. generalize false as seen.
  induction fields as [| f rest IH]; intro seen; cbn.
  - tauto.
  - destruct (f_default f); [apply IH |].
    destruct seen; [| apply IH]. split; discriminate.
Qed.

(** ** The length of an audiobook *)

Lemma format_is_hms_of_seconds (b : Book.t) (d : timedelta.t) :
  Book.audiobook_length b = Some d ->
  Book.format_audiobook_length b = hms (timedelta.seconds d).
Proof.
  intro H. unfold Book.format_audiobook_length, hms, divmod. rewrite H.
  rewrite (Z.mod_mod_divide (timedelta.seconds d) 3600 60)
    by (exists 60; reflexivity).
  reflexivity.
Qed.

(** Where the specification and the code agree: no duration renders as [N/A],
    and a duration shorter than a day renders as the specification words
    it, microseconds dropped. *)
Lemma audiobook_length_within_a_day (b : Book.t) :
  match Book.audiobook_length b with
  | None => Book.format_audiobook_length b = ustr "N/A"
  | Some d =>
      timedelta.days d = 0 ->
      Book.format_audiobook_length b =
        spec_audiobook_length (Book.audiobook_length b)
  end.
Proof.
  destruct (Book.audiobook_length b) as [d |] eqn:E.
  - intro Hd. rewrite (format_is_hms_of_seconds b d E).
    unfold spec_audiobook_length, timedelta.whole_seconds.
    rewrite Hd. reflexivity.
  - unfold Book.format_audiobook_length. now rewrite E.
Qed.

Lemma audiobook_length_examples :
  let book length :=
    sample_book BookFormat.AUDIOBOOK BookStatus.AVAILABLE BookCondition.NEW
      length in
  Book.format_audiobook_length (book None) = ustr "N/A" /\
  Book.format_audiobook_length (book (Some (timedelta.new 0 3661 0)))
    = ustr "01:01:01" /\
  Book.format_audiobook_length (book (Some (timedelta.new 0 0 0)))
    = ustr "00:00:00" /\
  Book.format_audiobook_length (book (Some (timedelta.new 0 3661 999999)))
    = ustr "01:01:01".
Proof. cbv zeta. repeat split; vm_compute; reflexivity. Qed.

(** C3.  For an audiobook of 25 hours, [timedelta(hours=25)], the method
    renders [01:00:00]: it reads the [seconds] attribute, which leaves out
    the days of the duration.  The full quotient of the total seconds by
    3600 is 25, which the specification renders as [25:00:00]. *)
Theorem audiobook_length_drops_days :
  let length := timedelta.new 0 (25 * 3600) 0 in
  let b := sample_book BookFormat.AUDIOBOOK BookStatus.AVAILABLE
             BookCondition.NEW (Some length) in
  timedelta.whole_seconds length = 90000 /\
  Book.format_audiobook_length b = ustr "01:00:00" /\
  spec_audiobook_length (Book.audiobook_length b) = ustr "25:00:00".
Proof. cbv zeta. repeat split; vm_compute; reflexivity. Qed.

(** ** The category registry *)

Lemma pystr_eqb_eq (a b : pystr) : pystr_eqb a b = true <-> a = b.
Proof.
  unfold pystr_eqb. destruct (list_eq_dec N.eq_dec a b); split; congruence.
Qed.

(** C5.  Resolving a string through [BookCategory(s)] fails for every
    string [s], the canonical labels and their other spellings included:
    the class has no members, so neither the lookup by value nor the
    case-insensitive search of [_missing_] finds one, and the call raises
    [ValueError]. *)
Theorem category_resolution_fails (lower : pystr -> pystr) (s : pystr) :
  BookCategory.call lower (VStr s) =
    Raise (Enum.not_a_valid (VStr s) BookCategory.cls).
Proof. reflexivity. Qed.

(** The labels themselves are among the strings that fail. *)
Lemma category_resolution_examples :
  In (ustr "Fantasy") VALID_CATEGORIES /\
  raises (BookCategory.call ascii_lower (VStr (ustr "Fantasy"))) /\
  raises (BookCategory.call ascii_lower (VStr (ustr "fantasy"))).
Proof.
  split; [vm_compute; tauto |].
  split; eexists; reflexivity.
Qed.

(** The dictionary the module means to bind to the name [BookCategory]
    is never built, for the same reason: the first entry already fails. *)
Lemma create_categories_raises (lower : pystr -> pystr) :
  BookCategory.create_categories lower =
    Raise (Enum.not_a_valid (VStr (ustr "Action/Adventure fiction"))
             BookCategory.cls).
Proof. reflexivity. Qed.

Lemma module_init_raises (lower : pystr -> pystr) :
  module_init lower =
    Raise (Enum.not_a_valid (VStr (ustr "Action/Adventure fiction"))
             BookCategory.cls).
Proof. reflexivity. Qed.

(** The hook itself does what the registry needs, on a class that has
    members: a string that is no member's value resolves to the first
    member equal to it up to case, and fails if there is none. *)
Lemma lookup_among_members (lower : pystr -> pystr) (labels : list pystr)
    (s : pystr) :
  let cls := {| cls_id := CBookCategory; cls_members := labels |} in
  Enum.__new__ (Category._missing_ lower) cls (VStr s) =
    if existsb (pystr_eqb s) labels then Ok (Enum.member cls s)
    else
      match find (fun m => pystr_eqb (lower m) (lower s)) labels with
      | Some m => Ok (Enum.member cls m)
      | None => Raise (Enum.not_a_valid (VStr s) cls)
      end.
Proof.
  cbv zeta. unfold Enum.__new__, Enum.value2member, Category._missing_.
  cbn [type_of cls_id cls_members pyclass_eqb].
  destruct (existsb (pystr_eqb s) labels); [reflexivity |].
  destruct (find _ labels); reflexivity.
Qed.

Lemma lookup_among_labels_example :
  let cls := {| cls_id := CBookCategory; cls_members := VALID_CATEGORIES |} in
  Enum.__new__ (Category._missing_ ascii_lower) cls
    (VStr (ustr "dark FANTASY")) = Ok (entry "Dark fantasy") /\
  raises (Enum.__new__ (Category._missing_ ascii_lower) cls
            (VStr (ustr "Dark  fantasy"))).
Proof.
  cbv zeta. split; [vm_compute; reflexivity |].
  eexists. vm_compute. reflexivity.
Qed.

(** ** Construction of a location *)

(** With the name [BookCategory] bound to anything but a class, the
    [isinstance] test of [__post_init__] raises before any check. *)
Lemma new_location_rebound (bound category shelf : pyval) :
  LibraryLocation.new (Value bound) category shelf =
    Raise (TypeError isinstance_msg).
Proof. reflexivity. Qed.

Lemma from_dict_rebound (bound data : pyval) :
  raises (LibraryLocation.from_dict (Value bound) data).
Proof.
  unfold LibraryLocation.from_dict.
  destruct (getitem data (ustr "category")) as [c | e]; cbn [bind];
    [| now exists e].
  destruct (getitem data (ustr "shelf")) as [s | e]; cbn [bind];
    [| now exists e].
  rewrite new_location_rebound. now eexists.
Qed.

Lemma from_json_rebound (bound : pyval) (text : pystr) :
  raises (LibraryLocation.from_json (Value bound) text).
Proof.
  unfold LibraryLocation.from_json.
  destruct (json.loads text) as [data | e]; cbn [bind]; [| now exists e].
  apply from_dict_rebound.
Qed.

(** The import of the module does not get as far as the rebinding: the
    call [LibraryLocation(entry, 3)] of a program that imports the module
    ends with the [ValueError] of line 161, not with the [TypeError] of an
    [isinstance] test. *)
Lemma rebinding_not_reached :
  BookCategory.create_categories ascii_lower =
    Raise (Enum.not_a_valid (VStr (ustr "Action/Adventure fiction"))
             BookCategory.cls) /\
  after_import ascii_lower
    (fun g => LibraryLocation.new (g_BookCategory g) (entry "Fantasy")
                (VInt 3)) =
    Raise (Enum.not_a_valid (VStr (ustr "Action/Adventure fiction"))
             BookCategory.cls) /\
  after_import ascii_lower
    (fun g => LibraryLocation.new (g_BookCategory g) (entry "Fantasy")
                (VInt 3)) <>
    Raise (TypeError isinstance_msg).
Proof. repeat split. discriminate. Qed.

(** C9.  A program that imports the module gets no location, whatever the
    arguments: the constructor call, [from_dict] and [from_json] all end
    with the [ValueError] that the assignment of line 161 raises on the
    first category, before the name [BookCategory] is rebound and before
    [LibraryLocation] is defined.  Were the name bound to a dictionary, or
    to anything that is not a class, the [isinstance] test of
    [__post_init__] would raise [TypeError] on every pair of arguments. *)
Theorem location_never_produced (lower : pystr -> pystr) :
  let import_error :=
    Enum.not_a_valid (VStr (ustr "Action/Adventure fiction"))
      BookCategory.cls in
  (forall category shelf : pyval,
     after_import lower
       (fun g => LibraryLocation.new (g_BookCategory g) category shelf) =
     Raise import_error) /\
  (forall data : pyval,
     after_import lower
       (fun g => LibraryLocation.from_dict (g_BookCategory g) data) =
     Raise import_error) /\
  (forall text : pystr,
     after_import lower
       (fun g => LibraryLocation.from_json (g_BookCategory g) text) =
     Raise import_error) /\
  (forall bound category shelf : pyval,
     LibraryLocation.new (Value bound) category shelf =
       Raise (TypeError isinstance_msg)).
Proof. cbv zeta. repeat split. Qed.

(** The checks of [__post_init__] are those of the specification when the
    name denotes the class: first the category, then the shelf. *)
Lemma new_location_with_class (category shelf : pyval) :
  LibraryLocation.new (Class CBookCategory) category shelf =
    if negb (pyclass_eqb (type_of category) CBookCategory)
    then Raise (InvalidCategory category)
    else
      match int_value shelf with
      | Some z =>
          if 1 <=? z
          then Ok {| LibraryLocation.category := category;
                     LibraryLocation.shelf := shelf |}
          else Raise (InvalidShelfNumber shelf)
      | None => Raise (InvalidShelfNumber shelf)
      end.
Proof.
  unfold LibraryLocation.new, LibraryLocation.__init__,
    LibraryLocation.__post_init__.
  cbn [LibraryLocation.class_statement bind isinstance
       LibraryLocation.category LibraryLocation.shelf].
  change (bind LibraryLocation.class_statement ?k) with (k tt).
  assert (Hc : issubclass (type_of category) CBookCategory
               = pyclass_eqb (type_of category) CBookCategory)
    by (destruct category as [| | | | | | | c ?]; try reflexivity;
        destruct c; reflexivity).
  cbn beta. rewrite Hc.
  destruct (pyclass_eqb (type_of category) CBookCategory); cbn [negb];
    [| reflexivity].
  destruct shelf as [| b | z | | | | | c ?]; try reflexivity.
  - destruct b; reflexivity.
  - cbn. rewrite Z.leb_antisym. destruct (z <? 1); reflexivity.
  - destruct c; reflexivity.
Qed.



(** ** What [json.loads] returns *)

Lemma dict_set_plain (k : pystr) (v : pyval) (items : list (pyval * pyval)) :
  plain v = true -> plain_items items = true ->
  plain_items (dict_set k v items) = true.
Proof.
  intro Hv. unfold plain_items.
  induction items as [| [k' v'] rest IH]; intro H.
  - cbn. now rewrite Hv.
  - cbn [forallb fst snd] in H.
    apply andb_prop in H as [H1 H2]. apply andb_prop in H1 as [Hk' Hv'].
    specialize (IH H2).
    destruct k' as [| b | z | l | s | l | l | c s];
      cbn [dict_set forallb fst snd];
      try (rewrite Hk', Hv', IH; reflexivity).
    destruct (pystr_eqb k s); cbn [forallb fst snd].
    + rewrite Hv, H2. reflexivity.
    + rewrite Hv', IH. reflexivity.
Qed.

Lemma dict_of_pairs_plain (pairs : list (pystr * pyval)) :
  plain_pairs pairs = true -> plain (json.dict_of_pairs pairs) = true.
Proof.
  unfold json.dict_of_pairs. cbn [plain].
  change (forallb (fun kv => plain (fst kv) && plain (snd kv)))
    with plain_items.
  assert (G : forall acc, plain_items acc = true ->
              plain_pairs pairs = true ->
              plain_items (fold_left
                (fun d kv => dict_set (fst kv) (snd kv) d) pairs acc) = true).
  { induction pairs as [| [k v] rest IH]; cbn; intros acc Hacc H.
    - exact Hacc.
    - apply andb_prop in H as [Hv Hrest].
      apply IH; [now apply dict_set_plain | exact Hrest]. }
  now apply G.
Qed.

Lemma plain_pairs_app (a b : list (pystr * pyval)) :
  plain_pairs a = true -> plain_pairs b = true ->
  plain_pairs (a ++ b) = true.
Proof. unfold plain_pairs. rewrite forallb_app. now intros -> ->. Qed.

Lemma match_constant_plain (s : pystr) (p : pyval * pystr) :
  json.match_constant json.constants s = Some p -> plain (fst p) = true.
Proof.
  unfold json.constants. cbn [json.match_constant].
  repeat match goal with
  | |- context [json.strip_prefix ?l s] => destruct (json.strip_prefix l s)
  end; intro H; inversion H; reflexivity.
Qed.

Lemma number_value_plain (neg : bool) (ds rest : pystr)
    (p : pyval * pystr) :
  json.number_value neg ds rest = Ok p -> plain (fst p) = true.
Proof.
  unfold json.number_value.
  destruct (json.match_fraction rest) as [frac r1].
  destruct (json.match_exponent r1) as [exp r2].
  destruct frac, exp; try (intro H; inversion H; reflexivity).
  destruct (within_limit (List.length ds)); intro H; inversion H.
  reflexivity.
Qed.

Lemma match_number_plain (s : pystr) (p : pyval * pystr) :
  json.match_number s = Some (Ok p) -> plain (fst p) = true.
Proof.
  unfold json.match_number. destruct s as [| c r]; [discriminate |].
  destruct (c =? 45)%N.
  - destruct (json.match_integer r) as [[ds rest] |]; [| discriminate].
    intro H; inversion H. eapply number_value_plain; eassumption.
  - destruct (json.match_integer (c :: r)) as [[ds rest] |]; [| discriminate].
    intro H; inversion H. eapply number_value_plain; eassumption.
Qed.

Lemma scan_plain (fuel : nat) :
  (forall s p, json.scan_once fuel s = Ok p -> plain (fst p) = true) /\
  (forall s acc p, json.members fuel s acc = Ok p ->
     plain_pairs acc = true -> plain_pairs (fst p) = true) /\
  (forall s acc p, json.elements fuel s acc = Ok p ->
     forallb plain acc = true -> forallb plain (fst p) = true).
Proof.
  induction fuel as [| fuel (IHs & IHm & IHe)].
  - repeat split; intros; discriminate.
  - split; [| split].
    + intros s p H. cbn [json.scan_once] in H.
      break_result H; try (inversion H; subst; reflexivity).
      * inversion H; subst; cbn [fst].
        apply dict_of_pairs_plain. eapply IHm; [eassumption | reflexivity].
      * inversion H; subst; cbn [fst plain]. eapply IHe;
          [eassumption | reflexivity].
      * inversion H; subst. eapply match_constant_plain; eassumption.
      * inversion H; subst. eapply match_number_plain; eassumption.
    + intros s acc p H Hacc. cbn [json.members] in H.
      break_result H.
      * inversion H; subst; cbn [fst]. apply plain_pairs_app; [exact Hacc |].
        cbn. erewrite IHs by eassumption. reflexivity.
      * eapply IHm; [eassumption |]. apply plain_pairs_app; [exact Hacc |].
        cbn. erewrite IHs by eassumption. reflexivity.
    + intros s acc p H Hacc. cbn [json.elements] in H.
      break_result H.
      * inversion H; subst; cbn [fst]. rewrite forallb_app, Hacc. cbn.
        erewrite IHs by eassumption. reflexivity.
      * eapply IHe; [eassumption |]. rewrite forallb_app, Hacc. cbn.
        erewrite IHs by eassumption. reflexivity.
Qed.

Lemma loads_plain (text : pystr) (data : pyval) :
  json.loads text = Ok data -> plain data = true.
Proof.
  unfold json.loads. intro H.
  assert (G : forall r : result (pyval * pystr),
            (p <- r ;; match json.skip_ws (snd p) with
                       | [] => Ok (fst p)
                       | _ :: _ => json.err "Extra data"
                       end) = Ok data ->
            (forall p, r = Ok p -> plain (fst p) = true) ->
            plain data = true).
  { intros [p |] Hr Hp; cbn [bind] in Hr; [| discriminate].
    destruct (json.skip_ws (snd p)); [| discriminate].
    inversion Hr; subst. now apply Hp. }
  destruct text as [| c r].
  - eapply G; [exact H |]. intros p Hp.
    eapply (proj1 (scan_plain _)); eassumption.
  - destruct c as [| c]; [| destruct (Pos.eq_dec c 65279)].
    + eapply G; [exact H |]. intros p Hp.
      eapply (proj1 (scan_plain _)); eassumption.
    + subst c. discriminate H.
    + assert (H' : (p <- json.scan_once (S (List.length (N.pos c :: r)))
                         (json.skip_ws (N.pos c :: r)) ;;
                    match json.skip_ws (snd p) with
                    | [] => Ok (fst p)
                    | _ :: _ => json.err "Extra data"
                    end) = Ok data).
      { revert H. clear -n. intro H.
        destruct c; try exact H;
          repeat (match goal with c : positive |- _ => destruct c end;
                  try exact H).
        contradiction. }
      eapply G; [exact H' |]. intros p Hp.
      eapply (proj1 (scan_plain _)); eassumption.
Qed.

Lemma dict_get_plain (k : pystr) (items : list (pyval * pyval)) (v : pyval) :
  plain_items items = true -> dict_get k items = Some v -> plain v = true.
Proof.
  unfold plain_items.
  induction items as [| [k' v'] rest IH]; [discriminate |].
  cbn [forallb fst snd]. intro H.
  apply andb_prop in H as [H1 H2]. apply andb_prop in H1 as [Hk' Hv'].
  destruct k' as [| b | z | l | s | l | l | c s]; cbn [dict_get];
    try (now apply IH).
  destruct (pystr_eqb k s); [| now apply IH].
  intro E. inversion E. now subst.
Qed.

Lemma getitem_plain (data : pyval) (k : pystr) (v : pyval) :
  plain data = true -> getitem data k = Ok v -> plain v = true.
Proof.
  destruct data; cbn [getitem]; try discriminate.
  intros Hd H. destruct (dict_get k items) eqn:E; [| discriminate].
  inversion H; subst. eapply dict_get_plain; eassumption.
Qed.

Lemma plain_not_category (v : pyval) :
  plain v = true -> pyclass_eqb (type_of v) CBookCategory = false.
Proof. destruct v; try reflexivity. discriminate. Qed.

(** ** Strings through [json.dumps] and [json.loads] *)

Lemma hex_value_digit (d : N) :
  (d < 16)%N -> json.hex_value (json.hex_digit d) = Some d.
Proof.
  intro H.
  assert (E : In d [0;1;2;3;4;5;6;7;8;9;10;11;12;13;14;15]%N).
  { cbn. lia. }
  cbn in E.
  repeat (destruct E as [<- | E]; [reflexivity |]). destruct E.
Qed.

Lemma hex4_u_escape (n : N) (rest : pystr) :
  (n < 65536)%N ->
  exists a b c d,
    json.u_escape n ++ rest = 92%N :: 117%N :: a :: b :: c :: d :: rest /\
    json.hex4 a b c d = Some n.
Proof.
  intro H. unfold json.u_escape. do 4 eexists. split; [reflexivity |].
  unfold json.hex4. rewrite !N.shiftr_div_pow2.
  rewrite !hex_value_digit by (apply N.mod_upper_bound; discriminate).
  f_equal. change (2 ^ 12)%N with 4096%N. change (2 ^ 8)%N with 256%N.
  change (2 ^ 4)%N with 16%N. lia.
Qed.

Lemma scanstring_plain_char (c : N) (r : pystr) :
  (c =? 34)%N = false -> (c =? 92)%N = false -> (c <? 32)%N = false ->
  json.scanstring (c :: r) = (p <- json.scanstring r ;; Ok (c :: fst p, snd p)).
Proof. intros H1 H2 H3. cbn [json.scanstring]. now rewrite H1, H2, H3. Qed.

Lemma scanstring_u (a b c d u : N) (r : pystr) :
  json.hex4 a b c d = Some u -> json.is_high_surrogate u = false ->
  json.scanstring (92 :: 117 :: a :: b :: c :: d :: r)%N =
    (p <- json.scanstring r ;; Ok (u :: fst p, snd p)).
Proof.
  intros Hh Hs. cbn [json.scanstring]. cbn [N.eqb Pos.eqb]. rewrite Hh.
  destruct r as [| ? [| ? [| ? [| ? [| ? [| ? ?]]]]]]; try reflexivity.
  rewrite Hs. reflexivity.
Qed.

Lemma scanstring_pair (a b c d a2 b2 c2 d2 hi lo : N) (r : pystr) :
  json.hex4 a b c d = Some hi -> json.is_high_surrogate hi = true ->
  json.hex4 a2 b2 c2 d2 = Some lo -> json.is_low_surrogate lo = true ->
  json.scanstring
    (92 :: 117 :: a :: b :: c :: d :: 92 :: 117 :: a2 :: b2 :: c2 :: d2 :: r)%N
  = (p <- json.scanstring r ;;
     Ok (json.join_surrogates hi lo :: fst p, snd p)).
Proof.
  intros Hh Hs Hl Hls. cbn [json.scanstring]. cbn [N.eqb Pos.eqb].
  rewrite Hh, Hs. cbn [andb N.eqb Pos.eqb]. rewrite Hl, Hls. reflexivity.
Qed.

Lemma lor_high_low (a b : N) :
  (b < 1024)%N -> N.lor (a * 1024) b = (a * 1024 + b)%N.
Proof.
  intro H.
  assert (E : N.land (a * 1024) b = 0%N).
  { apply N.bits_inj. intro i. rewrite N.land_spec, N.bits_0.
    destruct (N.lt_ge_cases i 10) as [Hi | Hi].
    - change 1024%N with (2 ^ 10)%N.
      rewrite N.mul_pow2_bits_low by exact Hi. reflexivity.
    - replace b with (b mod 2 ^ 10)%N
        by (apply N.mod_small; exact H).
      rewrite N.mod_pow2_bits_high by exact Hi. apply andb_false_r. }
  rewrite <- N.lxor_lor by exact E. symmetry.
  now apply N.add_nocarry_lxor.
Qed.

Lemma surrogate_pair (c : N) :
  (65536 <= c)%N -> (c < 1114112)%N ->
  let n := (c - 65536)%N in
  let hi := N.lor 55296 (N.land (N.shiftr n 10) 1023) in
  let lo := N.lor 56320 (N.land n 1023) in
  (hi < 65536)%N /\ (lo < 65536)%N /\
  json.is_high_surrogate hi = true /\ json.is_low_surrogate lo = true /\
  json.join_surrogates hi lo = c.
Proof.
  intros H1 H2 n hi lo.
  assert (Hn : (n < 1048576)%N) by (subst n; lia).
  assert (Ehi : hi = (55296 + n / 1024)%N).
  { subst hi. change 1023%N with (N.ones 10).
    rewrite N.land_ones, N.shiftr_div_pow2. change (2 ^ 10)%N with 1024%N.
    change 55296%N with (54 * 1024)%N. rewrite lor_high_low; lia. }
  assert (Elo : lo = (56320 + n mod 1024)%N).
  { subst lo. change 1023%N with (N.ones 10).
    rewrite N.land_ones. change (2 ^ 10)%N with 1024%N.
    change 56320%N with (55 * 1024)%N. rewrite lor_high_low; lia. }
  unfold json.is_high_surrogate, json.is_low_surrogate, json.join_surrogates.
  change 1023%N with (N.ones 10). rewrite !N.land_ones, N.shiftl_mul_pow2.
  change (2 ^ 10)%N with 1024%N.
  rewrite lor_high_low by lia.
  rewrite Ehi, Elo. subst n. repeat split; try lia;
    apply andb_true_intro; split; apply N.leb_le; lia.
Qed.

Lemma scanstring_escape_char (c : N) (t s rest : pystr) :
  scalar_value c = true ->
  json.scanstring t = Ok (s, rest) ->
  json.scanstring (json.escape_char c ++ t) = Ok (c :: s, rest).
Proof.
  intros Hc Ht. unfold json.escape_char.
  repeat match goal with
  | |- context [(c =? ?k)%N] =>
      let E := fresh "E" in
      destruct (c =? k)%N eqn:E;
      [apply N.eqb_eq in E; subst c; cbn; now rewrite Ht |]
  end.
  destruct ((32 <=? c)%N && (c <=? 126)%N) eqn:Eprint.
  - apply andb_prop in Eprint as [Hlo _]. apply N.leb_le in Hlo.
    cbn [app]. rewrite scanstring_plain_char; try assumption.
    + now rewrite Ht.
    + apply N.ltb_ge. exact Hlo.
  - unfold scalar_value in Hc.
    destruct (c <? 65536)%N eqn:Ebmp.
    + apply N.ltb_lt in Ebmp.
      destruct (hex4_u_escape c t Ebmp) as (a & b & x & d & -> & Hh).
      rewrite (scanstring_u _ _ _ _ c); [now rewrite Ht | exact Hh |].
      unfold json.is_high_surrogate.
      apply orb_prop in Hc as [Hc | Hc].
      * apply N.ltb_lt in Hc. apply andb_false_intro1. apply N.leb_gt.
        exact Hc.
      * apply andb_prop in Hc as [Hc _]. apply N.leb_le in Hc.
        apply andb_false_intro2. apply N.leb_gt. lia.
    + apply N.ltb_ge in Ebmp.
      assert (Hmax : (c < 1114112)%N).
      { apply orb_prop in Hc as [Hc | Hc].
        - apply N.ltb_lt in Hc. lia.
        - apply andb_prop in Hc as [_ Hc]. now apply N.ltb_lt in Hc. }
      destruct (surrogate_pair c Ebmp Hmax) as (Hhi & Hlo & Sh & Sl & Ej).
      cbv zeta. rewrite <- app_assoc.
      destruct (hex4_u_escape _ (json.u_escape
                  (N.lor 56320 (N.land (c - 65536) 1023)) ++ t) Hhi)
        as (a & b & x & d & -> & Hh).
      destruct (hex4_u_escape _ t Hlo) as (a2 & b2 & x2 & d2 & -> & Hl).
      rewrite (scanstring_pair _ _ _ _ _ _ _ _ _ _ _ Hh Sh Hl Sl).
      rewrite Ht. cbn [bind fst snd]. now rewrite Ej.
Qed.

Lemma scanstring_encoded (s rest : pystr) :
  forallb scalar_value s = true ->
  json.scanstring (flat_map json.escape_char s ++ 34%N :: rest) = Ok (s, rest).
Proof.
  induction s as [| c s IH]; intro H.
  - reflexivity.
  - cbn [forallb] in H. apply andb_prop in H as [Hc Hs].
    cbn [flat_map]. rewrite <- app_assoc.
    apply scanstring_escape_char; [exact Hc | now apply IH].
Qed.

(** ** Integers through [json.dumps] and [json.loads] *)

Lemma digits_value_snoc (ds : pystr) (d : N) :
  json.digits_value (ds ++ [d]) = (json.digits_value ds * 10 + (d - 48))%N.
Proof. unfold json.digits_value. now rewrite fold_left_app. Qed.

Lemma log2_div10 (n : N) :
  (n / 10 <> 0)%N -> (N.log2 (n / 10) < N.log2 n)%N.
Proof.
  intro H.
  assert (Hn : (0 < n)%N) by lia.
  apply N.log2_lt_pow2; [lia |].
  pose proof (N.log2_spec n Hn) as [_ Hup].
  rewrite N.pow_succ_r' in Hup. lia.
Qed.

Lemma digits_fuel_spec (fuel : nat) :
  forall (n : N) (acc : pystr),
    (N.to_nat (N.log2 n) < fuel)%nat ->
    exists d ds,
      digits_fuel fuel n acc = (d :: ds) ++ acc /\
      forallb json.is_digit (d :: ds) = true /\
      json.digits_value (d :: ds) = n /\
      (n <> 0%N -> d <> 48%N).
Proof.
  induction fuel as [| fuel IH]; intros n acc Hfuel; [lia |].
  cbn [digits_fuel].
  assert (Hd : json.is_digit (48 + n mod 10) = true).
  { unfold json.is_digit. apply andb_true_intro; split; apply N.leb_le; lia. }
  destruct (n / 10 =? 0)%N eqn:E.
  - apply N.eqb_eq in E. exists (48 + n mod 10)%N, []. repeat split.
    + cbn [forallb]. now rewrite Hd.
    + unfold json.digits_value. cbn [fold_left]. lia.
    + lia.
  - apply N.eqb_neq in E.
    pose proof (log2_div10 n E) as Hlog.
    destruct (IH (n / 10)%N ((48 + n mod 10)%N :: acc))
      as (d & ds & E1 & E2 & E3 & E4); [lia |].
    exists d, (ds ++ [(48 + n mod 10)%N]). repeat split.
    + rewrite E1. cbn [app]. now rewrite <- app_assoc.
    + change (d :: ds ++ [(48 + n mod 10)%N])
        with ((d :: ds) ++ [(48 + n mod 10)%N]).
      rewrite forallb_app, E2. cbn [forallb]. now rewrite Hd.
    + change (d :: ds ++ [(48 + n mod 10)%N])
        with ((d :: ds) ++ [(48 + n mod 10)%N]).
      rewrite digits_value_snoc, E3. lia.
    + intros _. apply E4. exact E.
Qed.

Lemma decimal_spec (n : N) :
  exists d ds,
    decimal n = d :: ds /\
    forallb json.is_digit (d :: ds) = true /\
    json.digits_value (d :: ds) = n /\
    (n <> 0%N -> d <> 48%N).
Proof.
  unfold decimal.
  destruct (digits_fuel_spec (S (N.to_nat (N.log2 n))) n [])
    as (d & ds & E1 & E2); [lia |].
  exists d, ds. rewrite E1, app_nil_r. auto.
Qed.

Lemma take_digits_app (ds rest : pystr) :
  forallb json.is_digit ds = true ->
  json.take_digits (ds ++ 125%N :: rest) = (ds, 125%N :: rest).
Proof.
  induction ds as [| d ds IH]; cbn [forallb app json.take_digits]; intro H.
  - reflexivity.
  - apply andb_prop in H as [Hd Hds]. rewrite Hd, (IH Hds). reflexivity.
Qed.

Lemma match_integer_decimal (n : N) (rest : pystr) :
  json.match_integer (decimal n ++ 125%N :: rest) =
    Some (decimal n, 125%N :: rest).
Proof.
  destruct (decimal_spec n) as (d & ds & E & Hdig & _ & Hlead).
  rewrite E. cbn [app json.match_integer].
  cbn [forallb] in Hdig. apply andb_prop in Hdig as [Hd Hds].
  destruct (d =? 48)%N eqn:E0.
  - apply N.eqb_eq in E0. subst d.
    destruct (N.eq_dec n 0) as [-> | Hn]; [| now elim (Hlead Hn)].
    vm_compute in E. now inversion E.
  - unfold json.is_digit in Hd. apply andb_prop in Hd as [H1 H2].
    apply N.leb_le in H1. apply N.eqb_neq in E0.
    replace (49 <=? d)%N with true by (symmetry; apply N.leb_le; lia).
    rewrite H2. cbn [andb]. rewrite (take_digits_app ds rest Hds).
    reflexivity.
Qed.

Lemma number_value_integer (neg : bool) (ds rest : pystr) :
  json.number_value neg ds (125%N :: rest) =
    if within_limit (List.length ds)
    then Ok (VInt (if neg then - Z.of_N (json.digits_value ds)
                   else Z.of_N (json.digits_value ds)), 125%N :: rest)
    else Raise (limit_exceeded_by (List.length ds)).
Proof. unfold json.number_value. destruct rest; reflexivity. Qed.

Lemma match_number_int_repr (z : Z) (rest : pystr) :
  json.match_number (int_repr z ++ 125%N :: rest) =
    Some (if within_limit (int_digits z)
          then Ok (VInt z, 125%N :: rest)
          else Raise (limit_exceeded_by (int_digits z))).
Proof.
  unfold int_repr, int_digits.
  destruct (decimal_spec (Z.abs_N z)) as (d & ds & E & Hdig & Hval & _).
  destruct (z <? 0) eqn:Ez.
  - apply Z.ltb_lt in Ez. cbn [app json.match_number N.eqb Pos.eqb].
    rewrite match_integer_decimal, number_value_integer.
    rewrite E, Hval, N2Z.inj_abs_N.
    replace (- Z.abs z) with z by lia. reflexivity.
  - apply Z.ltb_ge in Ez.
    pose proof (match_integer_decimal (Z.abs_N z) rest) as Hm.
    rewrite E in *. cbn [app json.match_number] in *.
    cbn [forallb] in Hdig. apply andb_prop in Hdig as [Hd _].
    replace (d =? 45)%N with false.
    + rewrite Hm, number_value_integer, Hval, N2Z.inj_abs_N.
      replace (Z.abs z) with z by lia. reflexivity.
    + symmetry. apply N.eqb_neq. unfold json.is_digit in Hd.
      apply andb_prop in Hd as [H1 _]. apply N.leb_le in H1. lia.
Qed.

Lemma int_repr_head (z : Z) :
  exists c tl, int_repr z = c :: tl /\
    (json.is_digit c = true \/
     c = 45%N /\ exists d tl', tl = d :: tl' /\ json.is_digit d = true).
Proof.
  unfold int_repr.
  destruct (decimal_spec (Z.abs_N z)) as (d & ds & E & Hdig & _).
  cbn [forallb] in Hdig. apply andb_prop in Hdig as [Hd _].
  rewrite E. destruct (z <? 0).
  - exists 45%N, (d :: ds). split; [reflexivity |]. right.
    split; [reflexivity |]. now exists d, ds.
  - exists d, ds. auto.
Qed.

Lemma digit_range (c : N) :
  json.is_digit c = true -> (48 <= c <= 57)%N.
Proof.
  unfold json.is_digit. intro H. apply andb_prop in H as [H1 H2].
  apply N.leb_le in H1, H2. lia.
Qed.

Lemma eqb_digit_false (k c : N) :
  json.is_digit c = true -> (k < 48 \/ 57 < k)%N -> (k =? c)%N = false.
Proof. intros H Hk. apply digit_range in H. apply N.eqb_neq. lia. Qed.

Lemma match_constant_int_repr (z : Z) (rest : pystr) :
  json.match_constant json.constants (int_repr z ++ rest) = None.
Proof.
  destruct (int_repr_head z) as (c & tl & -> & [Hc | (-> & d & tl' & -> & Hd)]).
  - cbn -[N.eqb]. rewrite !(eqb_digit_false _ c Hc) by lia. reflexivity.
  - cbn -[N.eqb]. rewrite !(eqb_digit_false _ d Hd) by lia. reflexivity.
Qed.

Lemma scan_once_int (fuel : nat) (z : Z) (rest : pystr) :
  json.scan_once (S fuel) (int_repr z ++ 125%N :: rest) =
    if within_limit (int_digits z) then Ok (VInt z, 125%N :: rest)
    else Raise (limit_exceeded_by (int_digits z)).
Proof.
  pose proof (match_constant_int_repr z (125%N :: rest)) as Hc.
  pose proof (match_number_int_repr z rest) as Hn.
  destruct (int_repr_head z) as (c & tl & E & H).
  rewrite E in *. cbn [app] in *. cbn [json.scan_once].
  rewrite Hc, Hn.
  assert (Hne : (c =? 34)%N = false /\ (c =? 123)%N = false /\
                (c =? 91)%N = false).
  { destruct H as [H | [-> _]]; [| now repeat split].
    apply digit_range in H. repeat split; apply N.eqb_neq; lia. }
  destruct Hne as (-> & -> & ->). reflexivity.
Qed.

Lemma series_representation (s : pystr) (n : Z) :
  BookSeries.json_representation
    {| BookSeries.series := VStr s; BookSeries.number := VInt n |} =
  if within_limit (int_digits n) then Ok (series_text s n)
  else Raise limit_exceeded.
Proof.
  unfold BookSeries.json_representation, BookSeries.dict_representation,
    series_text.
  cbn [BookSeries.series BookSeries.number json.dumps json.encode_key bind
       json.join].
  unfold int_to_str. destruct (within_limit (int_digits n)); [| reflexivity].
  cbn [bind json.join]. unfold json.encode_basestring_ascii. f_equal.
  generalize (flat_map json.escape_char s), (int_repr n). intros e d.
  repeat (rewrite <- app_assoc || rewrite <- app_comm_cons). reflexivity.
Qed.

Lemma scan_once_string (fuel : nat) (r : pystr) :
  json.scan_once (S fuel) (34%N :: r) =
    (p <- json.scanstring r ;; Ok (VStr (fst p), snd p)).
Proof. reflexivity. Qed.

Lemma skip_ws_int_repr (z : Z) (rest : pystr) :
  json.skip_ws (int_repr z ++ rest) = int_repr z ++ rest.
Proof.
  destruct (int_repr_head z) as (c & tl & -> & H). cbn [app json.skip_ws].
  replace (json.is_ws c) with false; [reflexivity |].
  unfold json.is_ws. symmetry.
  destruct H as [H | [-> _]]; [| reflexivity].
  apply digit_range in H.
  repeat (apply orb_false_intro); apply N.eqb_neq; lia.
Qed.

Lemma members_number (fuel : nat) (n : Z) (acc : list (pystr * pyval)) :
  within_limit (int_digits n) = true ->
  json.members (S (S fuel))
    (ustr "number" ++ [34; 58; 32]%N ++ int_repr n ++ [125]%N) acc =
  Ok (acc ++ [(ustr "number", VInt n)], []).
Proof.
  intro Hn.
  pose proof (scanstring_encoded (ustr "number")
                ([58; 32]%N ++ int_repr n ++ [125]%N) eq_refl) as K.
  change (flat_map json.escape_char (ustr "number")) with (ustr "number") in K.
  cbn [app] in K. remember (S fuel) as fuel' eqn:Ef.
  cbn [json.members app]. rewrite K. step_ws.
  subst fuel'. rewrite skip_ws_int_repr, scan_once_int, Hn. step_ws.
  reflexivity.
Qed.

Lemma members_series (fuel : nat) (s : pystr) (n : Z) :
  forallb scalar_value s = true ->
  within_limit (int_digits n) = true ->
  json.members (S (S (S fuel)))
    (ustr "series" ++ [34; 58; 32; 34]%N ++ flat_map json.escape_char s
       ++ [34; 44; 32; 34]%N ++ ustr "number" ++ [34; 58; 32]%N
       ++ int_repr n ++ [125]%N) [] =
  Ok ([(ustr "series", VStr s); (ustr "number", VInt n)], []).
Proof.
  intros Hs Hn.
  pose proof (scanstring_encoded (ustr "series")
                ([58; 32; 34]%N ++ flat_map json.escape_char s
                   ++ [34; 44; 32; 34]%N ++ ustr "number"
                   ++ [34; 58; 32]%N ++ int_repr n ++ [125]%N) eq_refl) as K1.
  pose proof (scanstring_encoded s
                ([44; 32; 34]%N ++ ustr "number"
                   ++ [34; 58; 32]%N ++ int_repr n ++ [125]%N) Hs) as K2.
  change (flat_map json.escape_char (ustr "series")) with (ustr "series") in K1.
  cbn [app] in K1, K2. remember (S (S fuel)) as fuel' eqn:Ef.
  cbn [json.members app]. rewrite K1. step_ws.
  subst fuel'. rewrite scan_once_string, K2. step_ws.
  now apply members_number.
Qed.

Lemma loads_series_text (s : pystr) (n : Z) :
  forallb scalar_value s = true ->
  within_limit (int_digits n) = true ->
  json.loads (series_text s n) =
    Ok (VDict [ (VStr (ustr "series"), VStr s);
                (VStr (ustr "number"), VInt n) ]).
Proof.
  intros Hs Hn. unfold series_text, json.loads.
  set (t := ustr "series" ++ [34; 58; 32; 34]%N
            ++ flat_map json.escape_char s ++ [34; 44; 32; 34]%N
            ++ ustr "number" ++ [34; 58; 32]%N ++ int_repr n ++ [125]%N).
  change ([123; 34]%N ++ t) with (123%N :: 34%N :: t).
  assert (Hlen : exists fuel, List.length t = S (S fuel)).
  { subst t. cbn [ustr list_ascii_of_string map app List.length]. eauto. }
  destruct Hlen as [fuel Hlen].
  cbn [List.length json.skip_ws json.is_ws N.eqb Pos.eqb orb].
  rewrite Hlen. remember (S (S (S fuel))) as fuel' eqn:Ef.
  cbn [json.scan_once N.eqb Pos.eqb json.skip_ws json.is_ws orb].
  subst fuel' t. rewrite members_series by assumption.
  reflexivity.
Qed.

(** The round trip of a series whose name is a string of Unicode scalar
    values and whose number is an integer within the limit of the
    interpreter. *)
Lemma series_round_trip (s : pystr) (n : Z) :
  forallb scalar_value s = true ->
  within_limit (int_digits n) = true ->
  (text <- BookSeries.json_representation
             {| BookSeries.series := VStr s; BookSeries.number := VInt n |} ;;
   BookSeries.from_json text) =
  Ok {| BookSeries.series := VStr s; BookSeries.number := VInt n |}.
Proof.
  intros Hs Hn. rewrite series_representation, Hn. cbn [bind].
  unfold BookSeries.from_json. rewrite (loads_series_text s n Hs Hn).
  reflexivity.
Qed.

(** ** Serialisation of the value objects *)

(** A location whose category is a member of an Enum class has no JSON
    text: [json.dumps] does not serialise Enum members. *)
Lemma location_not_serializable (cls : pyclass) (label : pystr)
    (shelf : pyval) :
  LibraryLocation.json_representation
    {| LibraryLocation.category := VMember cls label;
       LibraryLocation.shelf := shelf |} =
  Raise (json.not_serializable (VMember cls label)).
Proof. reflexivity. Qed.

(** No text is read back as a location while the name [BookCategory]
    denotes the class: the category of a parsed text is a JSON value,
    never a member of the class. *)
Lemma from_json_with_class (text : pystr) :
  raises (LibraryLocation.from_json (Class CBookCategory) text).
Proof.
  unfold LibraryLocation.from_json.
  destruct (json.loads text) as [data | e] eqn:El; cbn [bind];
    [| now exists e].
  apply loads_plain in El.
  unfold LibraryLocation.from_dict.
  destruct (getitem data (ustr "category")) as [c | e] eqn:Ec; cbn [bind];
    [| now exists e].
  destruct (getitem data (ustr "shelf")) as [s | e]; cbn [bind];
    [| now exists e].
  rewrite new_location_with_class.
  rewrite (plain_not_category c (getitem_plain _ _ _ El Ec)).
  cbn [negb]. now eexists.
Qed.

(** C1.  The round trip fails for every location whose category is a
    registry entry: [json_representation] raises [TypeError] on it, and
    [from_json] raises on every text, both when the name [BookCategory]
    denotes the class and when it denotes a dictionary.  The text of the
    location of category [Fantasy] and shelf 3 is read back as
    [InvalidCategory] in the first case and as [TypeError] in the second. *)
Theorem location_round_trip_fails :
  (forall (label : pystr) (shelf : pyval),
     LibraryLocation.json_representation
       {| LibraryLocation.category := VMember CBookCategory label;
          LibraryLocation.shelf := shelf |} =
     Raise (json.not_serializable (VMember CBookCategory label))) /\
  (forall text : pystr,
     raises (LibraryLocation.from_json (Class CBookCategory) text)) /\
  (forall (entries : list (pyval * pyval)) (text : pystr),
     raises (LibraryLocation.from_json (Value (VDict entries)) text)) /\
  LibraryLocation.from_json (Class CBookCategory) (location_text "Fantasy" 3)
    = Raise (InvalidCategory (VStr (ustr "Fantasy"))) /\
  LibraryLocation.from_json (Value (VDict [])) (location_text "Fantasy" 3)
    = Raise (TypeError isinstance_msg).
Proof.
  split; [intros; apply location_not_serializable |].
  split; [apply from_json_with_class |].
  split; [intros; apply from_json_rebound |].
  split; vm_compute; reflexivity.
Qed.

(** The condition on the name of a series is needed: a high surrogate
    followed by a low one is written as two escapes and read back as the
    one character they encode. *)
Lemma series_round_trip_needs_scalars :
  (text <- BookSeries.json_representation
             {| BookSeries.series := VStr [55357; 56832]%N;
                BookSeries.number := VInt 1 |} ;;
   BookSeries.from_json text) =
  Ok {| BookSeries.series := VStr [128512%N]; BookSeries.number := VInt 1 |}.
Proof. vm_compute. reflexivity. Qed.

(** ** The decoder on small texts *)

Lemma loads_examples :
  json.loads (ustr "[1,]") = json.err "Expecting value" /\
  json.loads (ustr "01") = json.err "Extra data" /\
  json.loads (ustr "1e") = json.err "Extra data" /\
  json.loads (ustr "[1 2]") = json.err "Expecting ',' delimiter" /\
  json.loads (ustr "{,}") = json.err json.expecting_name /\
  json.loads (ustr " [ -12 , 2.5e3, null, true ] ") =
    Ok (VList [VInt (-12); VFloat (ustr "2.5e3"); VNone; VBool true]) /\
  json.loads (location_text "Fantasy" 3) =
    Ok (VDict [ (VStr (ustr "category"), VStr (ustr "Fantasy"));
                (VStr (ustr "shelf"), VInt 3) ]).
Proof. repeat split; vm_compute; reflexivity. Qed.

Lemma dumps_examples :
  json.dumps (VDict [ (VStr (ustr "series"), VStr (ustr "Dune"));
                      (VStr (ustr "number"), VInt (-12)) ]) =
    Ok (series_text (ustr "Dune") (-12)) /\
  json.dumps (VStr [233; 128512; 127; 10]%N) =
    Ok ([34%N] ++ ustr "\u00e9\ud83d\ude00\u007f\n" ++ [34%N]) /\
  json.dumps (VList [VInt 1; VNone; VBool false]) =
    Ok (ustr "[1, null, false]").
Proof. repeat split; vm_compute; reflexivity. Qed.

(** ** The limit on the digits of an integer *)

Lemma fold_digits (ds : pystr) (a : N) :
  fold_left (fun acc c => (acc * 10 + (c - 48))%N) ds a =
    (a * 10 ^ N.of_nat (List.length ds) + json.digits_value ds)%N.
Proof.
  unfold json.digits_value. revert a.
  induction ds as [| c ds IH]; intro a.
  - cbn. lia.
  - cbn [fold_left List.length]. rewrite IH, (IH (0 * 10 + (c - 48))%N).
    rewrite Nat2N.inj_succ, N.pow_succ_r'. lia.
Qed.

Lemma digits_value_upper (ds : pystr) :
  forallb json.is_digit ds = true ->
  (json.digits_value ds < 10 ^ N.of_nat (List.length ds))%N.
Proof.
  induction ds as [| d ds IH] using rev_ind; intro H.
  - cbn. lia.
  - rewrite forallb_app in H. apply andb_prop in H as [Hds Hd].
    cbn [forallb] in Hd. rewrite andb_true_r in Hd.
    apply digit_range in Hd. specialize (IH Hds).
    rewrite digits_value_snoc, length_app. cbn [List.length].
    rewrite Nat.add_1_r, Nat2N.inj_succ, N.pow_succ_r'. lia.
Qed.

Lemma digits_value_lower (d : N) (ds : pystr) :
  json.is_digit d = true -> d <> 48%N ->
  (10 ^ N.of_nat (List.length ds) <= json.digits_value (d :: ds))%N.
Proof.
  intros Hd Hn. apply digit_range in Hd.
  unfold json.digits_value. cbn [fold_left]. rewrite fold_digits.
  assert (1 <= 0 * 10 + (d - 48))%N by lia.
  set (p := (10 ^ N.of_nat (List.length ds))%N). nia.
Qed.

(** An integer is within the limit exactly when its absolute value is
    below the 4300th power of ten. *)
Lemma within_limit_iff (z : Z) :
  within_limit (int_digits z) = true <-> Z.abs z < 10 ^ 4300.
Proof.
  unfold within_limit, int_digits.
  destruct (decimal_spec (Z.abs_N z)) as (d & ds & E & Hdig & Hval & Hlead).
  rewrite E. pose proof (digits_value_upper _ Hdig) as Hup.
  rewrite Hval in Hup.
  assert (Hpow : 10 ^ 4300 = Z.of_N (10 ^ N.of_nat max_str_digits)).
  { rewrite N2Z.inj_pow. reflexivity. }
  rewrite Hpow, <- N2Z.inj_abs_N, <- N2Z.inj_lt. clear Hpow.
  assert (Hm : (1 <= max_str_digits)%nat)
    by (unfold max_str_digits; apply Nat.leb_le; reflexivity).
  revert Hm. generalize max_str_digits. intros m Hm.
  rewrite Nat.leb_le. split.
  - intro Hlen. eapply N.lt_le_trans; [exact Hup |].
    apply N.pow_le_mono_r; lia.
  - intro Hlt. destruct (N.eq_dec (Z.abs_N z) 0) as [E0 | E0].
    + rewrite E0 in E. vm_compute in E. inversion E. subst. exact Hm.
    + cbn [forallb] in Hdig. apply andb_prop in Hdig as [Hd _].
      pose proof (digits_value_lower d ds Hd (Hlead E0)) as Hlow.
      rewrite Hval in Hlow. cbn [List.length].
      destruct (Nat.le_gt_cases (S (List.length ds)) m) as [Hle | Hgt];
        [exact Hle |].
      assert (10 ^ N.of_nat m <= 10 ^ N.of_nat (List.length ds))%N
        by (apply N.pow_le_mono_r; lia).
      lia.
Qed.

Lemma digit_limit_examples :
  json.dumps (VInt (10 ^ 4300)) = Raise limit_exceeded /\
  json.dumps (VInt (- 10 ^ 4300)) = Raise limit_exceeded /\
  json.loads (repeat 57%N 4300) = Ok (VInt (10 ^ 4300 - 1)) /\
  json.loads (repeat 57%N 4301) = Raise (limit_exceeded_by 4301) /\
  json.loads (repeat 57%N 4301 ++ ustr ".5") =
    Ok (VFloat (repeat 57%N 4301 ++ ustr ".5")).
Proof.
  assert (D : forall z, ~ Z.abs z < 10 ^ 4300 ->
                        json.dumps (VInt z) = Raise limit_exceeded).
  { intros z Hz. cbn [json.dumps]. unfold int_to_str.
    destruct (within_limit (int_digits z)) eqn:E; [| reflexivity].
    apply within_limit_iff in E. contradiction. }
  assert (P : Z.abs (10 ^ 4300) = 10 ^ 4300)
    by (apply Z.abs_eq, Z.pow_nonneg; discriminate).
  split; [apply D; rewrite P; apply Z.lt_irrefl |].
  split; [apply D; rewrite Z.abs_opp, P; apply Z.lt_irrefl |].
  split; [vm_compute; reflexivity |].
  split; vm_compute; reflexivity.
Qed.

(** * Further properties *)

(** ** The series value object *)

(** X1.  A series whose name is a string of Unicode scalar values and whose
    number is an integer of at most 4300 digits, the limit of the
    interpreter on decimal conversion, is read back from its JSON text as
    itself. *)
Theorem series_json_round_trip (s : pystr) (n : Z) :
  forallb scalar_value s = true ->
  Z.abs n < 10 ^ 4300 ->
  exists text,
    BookSeries.json_representation
      {| BookSeries.series := VStr s; BookSeries.number := VInt n |} = Ok text
    /\ BookSeries.from_json text =
         Ok {| BookSeries.series := VStr s; BookSeries.number := VInt n |}.
Proof.
  intros Hs Hn. apply within_limit_iff in Hn.
  exists (series_text s n). split.
  - now rewrite series_representation, Hn.
  - unfold BookSeries.from_json. rewrite (loads_series_text s n Hs Hn).
    reflexivity.
Qed.

Lemma series_json_round_trip_witness :
  exists text,
    BookSeries.json_representation
      {| BookSeries.series := VStr (ustr "Dune \ 2");
         BookSeries.number := VInt (-12) |} = Ok text
    /\ BookSeries.from_json text =
         Ok {| BookSeries.series := VStr (ustr "Dune \ 2");
               BookSeries.number := VInt (-12) |}.
Proof.
  apply (series_json_round_trip (ustr "Dune \ 2") (-12) eq_refl).
  vm_compute. reflexivity.
Defined.

(** X2.  [from_dict] reads the two keys in the order [series], [number]:
    on a dictionary that has both it returns their values as they are,
    other keys ignored; a missing key raises [KeyError] with the first
    missing key; anything but a dictionary raises [TypeError]. *)
Theorem series_from_dict_cases (data : pyval) :
  match data with
  | VDict items =>
      match dict_get (ustr "series") items, dict_get (ustr "number") items with
      | Some s, Some n =>
          BookSeries.from_dict data =
            Ok {| BookSeries.series := s; BookSeries.number := n |}
      | Some _, None =>
          BookSeries.from_dict data = Raise (KeyError (VStr (ustr "number")))
      | None, _ =>
          BookSeries.from_dict data = Raise (KeyError (VStr (ustr "series")))
      end
  | _ => exists msg, BookSeries.from_dict data = Raise (TypeError msg)
  end.
Proof.
  destruct data; try (eexists; reflexivity).
  unfold BookSeries.from_dict. cbn [getitem].
  destruct (dict_get (ustr "series") items);
    destruct (dict_get (ustr "number") items); reflexivity.
Qed.

(** X3.  [from_json] returns a series exactly when the text is a JSON
    object with the members [series] and [number]; the fields are then the
    parsed values, whatever their JSON types, and hold no Enum member. *)
Theorem series_from_json_returns (text : pystr) (v : BookSeries.t) :
  BookSeries.from_json text = Ok v <->
  exists items,
    json.loads text = Ok (VDict items) /\
    dict_get (ustr "series") items = Some (BookSeries.series v) /\
    dict_get (ustr "number") items = Some (BookSeries.number v) /\
    plain (BookSeries.series v) = true /\ plain (BookSeries.number v) = true.
Proof.
  unfold BookSeries.from_json. split.
  - destruct (json.loads text) as [data | e] eqn:El; cbn [bind];
      [| discriminate].
    pose proof (loads_plain _ _ El) as Hp.
    pose proof (series_from_dict_cases data) as Hc.
    destruct data; try (destruct Hc as [msg ->]; discriminate).
    destruct (dict_get (ustr "series") items) as [s |] eqn:E1;
      [| rewrite Hc; discriminate].
    destruct (dict_get (ustr "number") items) as [n |] eqn:E2;
      [| rewrite Hc; discriminate].
    rewrite Hc. intro H. inversion H; subst; cbn [BookSeries.series
      BookSeries.number].
    exists items. split; [reflexivity |]. split; [exact E1 |].
    split; [exact E2 |]. split.
    + exact (dict_get_plain _ _ _ Hp E1).
    + exact (dict_get_plain _ _ _ Hp E2).
  - intros (items & -> & H1 & H2 & _). cbn [bind].
    pose proof (series_from_dict_cases (VDict items)) as Hc.
    cbn beta iota in Hc. rewrite H1, H2 in Hc. rewrite Hc. now destruct v.
Qed.

Lemma hex_digit_printable (d : N) :
  (d < 16)%N -> printable (json.hex_digit d) = true.
Proof.
  intro H. unfold printable, json.hex_digit.
  destruct (d <? 10)%N eqn:E;
    [apply N.ltb_lt in E | apply N.ltb_ge in E];
    apply andb_true_intro; split; apply N.leb_le; lia.
Qed.

Lemma u_escape_printable (n : N) :
  forallb printable (json.u_escape n) = true.
Proof.
  unfold json.u_escape. cbn [forallb].
  rewrite !hex_digit_printable by (apply N.mod_upper_bound; discriminate).
  reflexivity.
Qed.

Lemma escape_char_printable (c : N) :
  forallb printable (json.escape_char c) = true.
Proof.
  unfold json.escape_char.
  repeat match goal with
  | |- context [(c =? ?k)%N] => destruct (c =? k)%N; [reflexivity |]
  end.
  destruct ((32 <=? c)%N && (c <=? 126)%N) eqn:E.
  - cbn [forallb]. unfold printable. now rewrite E.
  - destruct (c <? 65536)%N; [apply u_escape_printable |].
    cbv zeta. rewrite forallb_app, !u_escape_printable. reflexivity.
Qed.

Lemma flat_map_printable (s : pystr) :
  forallb printable (flat_map json.escape_char s) = true.
Proof.
  induction s as [| c s IH]; [reflexivity |].
  cbn [flat_map]. now rewrite forallb_app, escape_char_printable, IH.
Qed.

Lemma int_repr_printable (z : Z) : forallb printable (int_repr z) = true.
Proof.
  assert (D : forall l, forallb json.is_digit l = true ->
                        forallb printable l = true).
  { induction l as [| c l IH]; [reflexivity |]. cbn [forallb]. intro H.
    apply andb_prop in H as [Hc Hl]. rewrite (IH Hl), andb_true_r.
    apply digit_range in Hc. unfold printable.
    apply andb_true_intro; split; apply N.leb_le; lia. }
  unfold int_repr.
  destruct (decimal_spec (Z.abs_N z)) as (d & ds & E & Hdig & _).
  rewrite E. destruct (z <? 0); [| exact (D _ Hdig)].
  change (printable 45 && forallb printable (d :: ds) = true).
  rewrite (D _ Hdig). reflexivity.
Qed.

(** X5.  The JSON text of a series with a string name and an integer
    number exists exactly when the number has at most 4300 digits, the
    limit of the interpreter; it is then made of printable ASCII characters
    only, whatever characters the name has.  Beyond the limit
    [json_representation] raises [ValueError]. *)
Theorem series_text_is_ascii (s : pystr) (n : Z) :
  if within_limit (int_digits n) then
    exists text,
      BookSeries.json_representation
        {| BookSeries.series := VStr s; BookSeries.number := VInt n |}
        = Ok text
      /\ forallb printable text = true
  else
    BookSeries.json_representation
      {| BookSeries.series := VStr s; BookSeries.number := VInt n |}
      = Raise limit_exceeded.
Proof.
  rewrite series_representation.
  destruct (within_limit (int_digits n)); [| reflexivity].
  exists (series_text s n). split; [reflexivity |].
  unfold series_text.
  rewrite !forallb_app, flat_map_printable, int_repr_printable.
  reflexivity.
Qed.

(** ** The registries *)

(** X6.  Resolving a string through [DigitalFormat(s)] fails with
    [ValueError] for every string, the 23 format labels included, and
    [create_formats] fails on its first label: the class has no members. *)
Theorem digital_format_resolution_fails (lower : pystr -> pystr) :
  (forall s : pystr,
     DigitalFormat.call lower (VStr s) =
       Raise (Enum.not_a_valid (VStr s) DigitalFormat.cls)) /\
  DigitalFormat.create_formats lower =
    Raise (Enum.not_a_valid (VStr (ustr "EPUB")) DigitalFormat.cls).
Proof. split; reflexivity. Qed.

(** X7.  The import of the module ends at line 161 with the [ValueError]
    of the first category, before any of the classes below is defined; the
    assignment of line 259 and the class statement of [Book] raise on
    their own too. *)
Theorem import_fails (lower : pystr -> pystr) :
  module_init lower =
    Raise (Enum.not_a_valid (VStr (ustr "Action/Adventure fiction"))
             BookCategory.cls) /\
  raises (BookCategory.create_categories lower) /\
  raises (DigitalFormat.create_formats lower) /\
  raises Book.class_statement.
Proof. repeat split; eexists; reflexivity. Qed.

(** X8.  On an Enum class of the [Category] family that has members, a
    call with a string returns only a member whose value equals the string
    up to case; it returns the member of that very value if there is one;
    it returns some member as soon as one matches up to case; and it
    raises [ValueError] when none does. *)
Theorem lookup_up_to_case (lower : pystr -> pystr) (labels : list pystr)
    (s : pystr) :
  let cls := {| cls_id := CBookCategory; cls_members := labels |} in
  let call := Enum.__new__ (Category._missing_ lower) cls (VStr s) in
  (forall m, call = Ok m ->
     exists v, m = Enum.member cls v /\ In v labels /\ lower v = lower s) /\
  (In s labels -> call = Ok (Enum.member cls s)) /\
  ((exists v, In v labels /\ lower v = lower s) ->
     exists v, call = Ok (Enum.member cls v)) /\
  ((forall v, In v labels -> lower v <> lower s) ->
     call = Raise (Enum.not_a_valid (VStr s) cls)).
Proof.
  cbv zeta. rewrite lookup_among_members.
  destruct (existsb (pystr_eqb s) labels) eqn:Ex.
  - apply existsb_exists in Ex as (v & Hin & Heq).
    apply pystr_eqb_eq in Heq. subst v. repeat split.
    + intros m H. inversion H. now exists s.
    + intros _. now exists s.
    + intro Hno. now elim (Hno s Hin).
  - assert (Hnot : ~ In s labels).
    { intro Hin. assert (existsb (pystr_eqb s) labels = true).
      { apply existsb_exists. exists s. split; [exact Hin |].
        now apply pystr_eqb_eq. }
      congruence. }
    destruct (find (fun m => pystr_eqb (lower m) (lower s)) labels)
      as [v |] eqn:Ef.
    + apply find_some in Ef as [Hin Heq]. apply pystr_eqb_eq in Heq.
      repeat split.
      * intros m H. inversion H. now exists v.
      * intro Hin'. now elim Hnot.
      * intros _. now exists v.
      * intro Hno. now elim (Hno v Hin).
    + repeat split.
      * discriminate.
      * intro Hin. now elim Hnot.
      * intros (v & Hin & Heq).
        pose proof (find_none _ _ Ef v Hin) as Hv. cbn beta in Hv.
        rewrite Heq in Hv.
        assert (pystr_eqb (lower s) (lower s) = true)
          by now apply pystr_eqb_eq.
        congruence.
Qed.

(** ** The checks of a location *)

(** X9.  When the name [BookCategory] denotes the class, the constructor
    returns the location exactly for a member of the class and an integer
    shelf of at least 1 (the boolean [True] counts as 1); a category that
    is not a member raises [Invalid category] whatever the shelf, and only
    then is the shelf looked at. *)
Theorem location_checks_with_class (category shelf : pyval) :
  match LibraryLocation.new (Class CBookCategory) category shelf with
  | Ok v =>
      v = {| LibraryLocation.category := category;
             LibraryLocation.shelf := shelf |} /\
      type_of category = CBookCategory /\
      exists z, int_value shelf = Some z /\ 1 <= z
  | Raise e =>
      (type_of category <> CBookCategory /\ e = InvalidCategory category) \/
      (type_of category = CBookCategory /\ e = InvalidShelfNumber shelf /\
       forall z, int_value shelf = Some z -> z < 1)
  end.
Proof.
  rewrite new_location_with_class. unfold pyclass_eqb.
  destruct (pyclass_eq_dec (type_of category) CBookCategory) as [Ec | Ec];
    cbn [negb]; [| now left].
  destruct (int_value shelf) as [z |] eqn:Ez.
  - destruct (1 <=? z) eqn:El.
    + apply Z.leb_le in El. repeat split; eauto.
    + apply Z.leb_gt in El. right. repeat split; auto.
      intros z' H. inversion H. now subst.
  - right. repeat split; auto. discriminate.
Qed.

(** ** Construction and status of a book *)

(** X10.  The initialiser accepts every hardcover and paperback book as
    given; it accepts an audiobook or e-book only with the status
    [AVAILABLE], and raises [Invalid status] for the other three. *)
Theorem book_init_by_format (args : Book.t) :
  if BookFormat.is_physical (Book.format args)
  then Book.__init__ args = Ok args
  else
    match Book.current_status args with
    | BookStatus.AVAILABLE => Book.__init__ args = Ok args
    | s => Book.__init__ args =
             Raise (Book.invalid_status s (Book.format args))
    end.
Proof.
  unfold Book.__init__, Book.__post_init__, BookStatus.get_valid_statuses.
  destruct (BookFormat.is_physical (Book.format args));
    destruct (Book.current_status args); reflexivity.
Qed.

(** X11.  [set_status] fails exactly on an audiobook or e-book with a
    target other than [AVAILABLE]; in particular [set_status(AVAILABLE)]
    succeeds on every book. *)
Theorem set_status_fails_iff (b : Book.t) (n : BookStatus.t) :
  (raises (fst (Book.set_status n b)) <->
   BookFormat.is_physical (Book.format b) = false /\
   n <> BookStatus.AVAILABLE) /\
  fst (Book.set_status BookStatus.AVAILABLE b) = Ok tt.
Proof.
  unfold Book.set_status, BookStatus.get_valid_statuses.
  destruct (BookFormat.is_physical (Book.format b)); split;
    try reflexivity; destruct n; cbn; split;
    try (intros [e H]; discriminate);
    try (intros [H1 H2]; congruence);
    try (intros _; split; [reflexivity | discriminate]);
    try (intros _; eexists; reflexivity).
Qed.

Lemma with_status_twice (b : Book.t) (n m : BookStatus.t) :
  Book.with_status (Book.with_status b n) m = Book.with_status b m.
Proof. reflexivity. Qed.

(** X12.  Of two [set_status] calls in a row the second behaves as if the
    first had not been made: it has the outcome it would have on the
    original book, and when it succeeds the book is the one it would have
    left there, so the last successful call decides the status; when it
    fails the book is as the first call left it. *)
Theorem set_status_twice (b : Book.t) (n m : BookStatus.t) :
  let b1 := snd (Book.set_status n b) in
  fst (Book.set_status m b1) = fst (Book.set_status m b) /\
  match fst (Book.set_status m b) with
  | Ok _ => snd (Book.set_status m b1) = snd (Book.set_status m b) /\
            Book.current_status (snd (Book.set_status m b1)) = m
  | Raise _ => snd (Book.set_status m b1) = b1
  end.
Proof.
  cbv zeta.
  destruct (set_status_cases b n) as [[_ E1] | [_ E1]]; rewrite E1;
    cbn [snd];
    destruct (set_status_cases b m) as [[_ E2] | [_ E2]];
    unfold Book.set_status in *; cbn [Book.format Book.with_status] in *;
    destruct (negb (existsb (BookStatus.eqb m)
                (BookStatus.get_valid_statuses (Book.format b))));
    inversion E2; cbn [fst snd]; auto.
Qed.

(** ** The rendering of a duration *)

Lemma format_02d_two_digits (z : Z) :
  0 <= z < 100 -> format_02d z = two_digits z.
Proof.
  intro H.
  assert (A : forallb
                (fun k => pystr_eqb (format_02d (Z.of_nat k))
                            (two_digits (Z.of_nat k)))
                (seq 0 100) = true) by (vm_compute; reflexivity).
  rewrite forallb_forall in A.
  specialize (A (Z.to_nat z)). rewrite Z2Nat.id in A by lia.
  apply pystr_eqb_eq, A, in_seq. lia.
Qed.

Lemma two_digits_app_inj (a b : Z) (l l' : pystr) :
  0 <= a < 100 -> 0 <= b < 100 ->
  two_digits a ++ l = two_digits b ++ l' -> a = b /\ l = l'.
Proof.
  unfold two_digits. intros Ha Hb.
  remember (48 + a / 10) as x1 eqn:E1. remember (48 + a mod 10) as x2 eqn:E2.
  remember (48 + b / 10) as y1 eqn:E3. remember (48 + b mod 10) as y2 eqn:E4.
  cbn [app]. intro H. injection H as H1 H2 H3.
  split; [lia | exact H3].
Qed.

(** X13.  For a duration in normal form the method returns exactly eight
    characters: two digits for the hours, at most 23, a colon, two digits
    for the minutes, a colon and two digits for the seconds, which together
    make up the [seconds] attribute. *)
Theorem audiobook_length_shape (b : Book.t) (d : timedelta.t) :
  Book.audiobook_length b = Some d ->
  timedelta.normalised d ->
  exists h m s,
    0 <= h < 24 /\ 0 <= m < 60 /\ 0 <= s < 60 /\
    timedelta.seconds d = 3600 * h + 60 * m + s /\
    Book.format_audiobook_length b =
      two_digits h ++ [58%N] ++ two_digits m ++ [58%N] ++ two_digits s /\
    List.length (Book.format_audiobook_length b) = 8%nat.
Proof.
  intros Hb [Hsec _].
  rewrite (format_is_hms_of_seconds b d Hb). unfold hms.
  set (t := timedelta.seconds d) in *.
  exists (t / 3600), (t mod 3600 / 60), (t mod 60).
  assert (Hh : 0 <= t / 3600 < 24) by lia.
  assert (Hm : 0 <= t mod 3600 / 60 < 60) by lia.
  assert (Hs : 0 <= t mod 60 < 60) by lia.
  rewrite !format_02d_two_digits by lia.
  repeat split; try lia.
Qed.

Lemma audiobook_length_shape_witness :
  exists h m s,
    0 <= h < 24 /\ 0 <= m < 60 /\ 0 <= s < 60 /\
    timedelta.seconds (timedelta.new 0 3661 0) = 3600 * h + 60 * m + s /\
    Book.format_audiobook_length (audiobook (timedelta.new 0 3661 0)) =
      two_digits h ++ [58%N] ++ two_digits m ++ [58%N] ++ two_digits s /\
    List.length
      (Book.format_audiobook_length (audiobook (timedelta.new 0 3661 0)))
    = 8%nat.
Proof.
  apply (audiobook_length_shape (audiobook (timedelta.new 0 3661 0))
           (timedelta.new 0 3661 0) eq_refl).
  vm_compute. repeat split; discriminate.
Defined.

Lemma new_normalised (d s us : Z) : timedelta.normalised (timedelta.new d s us).
Proof. unfold timedelta.normalised, timedelta.new. cbn. lia. Qed.

(** X14.  The rendering leaves out the days and the microseconds of the
    duration: adding whole days to a duration, or changing its
    microseconds within the second, gives the same text. *)
Theorem audiobook_length_ignores_days (d s us k us' : Z) :
  0 <= us < 1000000 -> 0 <= us' < 1000000 ->
  Book.format_audiobook_length (audiobook (timedelta.new (d + k) s us')) =
  Book.format_audiobook_length (audiobook (timedelta.new d s us)).
Proof.
  intros Hus Hus'.
  rewrite (format_is_hms_of_seconds
             (audiobook (timedelta.new (d + k) s us')) _ eq_refl).
  rewrite (format_is_hms_of_seconds
             (audiobook (timedelta.new d s us)) _ eq_refl).
  f_equal.
  unfold timedelta.new. cbn [timedelta.seconds]. lia.
Qed.

Lemma audiobook_length_ignores_days_witness :
  Book.format_audiobook_length (audiobook (timedelta.new (0 + 1) 3600 999)) =
  Book.format_audiobook_length (audiobook (timedelta.new 0 3600 0)).
Proof.
  apply (audiobook_length_ignores_days 0 3600 0 1 999); lia.
Defined.

(** X15.  Two durations in normal form get the same text only if they
    have the same [seconds] attribute: the text determines the time of
    day. *)
Theorem audiobook_length_injective (a b : timedelta.t) :
  timedelta.normalised a -> timedelta.normalised b ->
  Book.format_audiobook_length (audiobook a) =
  Book.format_audiobook_length (audiobook b) ->
  timedelta.seconds a = timedelta.seconds b.
Proof.
  intros Ha Hb H.
  destruct (audiobook_length_shape (audiobook a) a eq_refl Ha)
    as (h & m & s & Hh & Hm & Hs & Ea & Ta & _).
  destruct (audiobook_length_shape (audiobook b) b eq_refl Hb)
    as (h' & m' & s' & Hh' & Hm' & Hs' & Eb & Tb & _).
  rewrite Ta, Tb in H.
  apply two_digits_app_inj in H as [E1 H]; [| lia | lia].
  apply app_inv_head in H.
  apply two_digits_app_inj in H as [E2 H]; [| lia | lia].
  apply app_inv_head in H. rewrite <- (app_nil_r (two_digits s)) in H.
  rewrite <- (app_nil_r (two_digits s')) in H.
  apply two_digits_app_inj in H as [E3 _]; lia.
Qed.

Lemma audiobook_length_injective_witness :
  timedelta.seconds (timedelta.new 0 3661 5) =
  timedelta.seconds (timedelta.new 7 3661 0).
Proof.
  apply audiobook_length_injective;
    [apply new_normalised | apply new_normalised | reflexivity].
Defined.
